(** * bench_executor engine adapters: BURP and Morph-RDB

    A shallow embedding of [bench_executor/burp.py] and
    [bench_executor/morphrdb.py].  Python strings are [string], Python
    integers are [Z], dictionaries that keep insertion order are association
    lists, the host file system is a finite map from paths to nodes, and the
    effects of the adapters (file writes, log records, launched commands,
    elapsed time, raised exceptions) are threaded through a state-and-exception
    monad over a [World] record. *)

From Stdlib Require Import ZArith Ascii String Lia Bool.
From Stdlib Require Import Floats.SpecFloat.
From stdpp Require Import base gmap strings list pretty.
From Equations Require Import Equations.

Local Open Scope Z_scope.

(** ** Python [str] operations used by the adapters *)

Module PyStr.

Fixpoint drop (n : nat) (s : string) : string :=
  match n, s with
  | O, _ => s
  | S k, String _ s' => drop k s'
  | S _, EmptyString => EmptyString
  end.

Lemma length_drop n s : (String.length (drop n s) <= String.length s)%nat.
Proof.
  revert s; induction n as [|n IH]; intros [|c s]; simpl; try lia.
  specialize (IH s); lia.
Qed.

(** [s.startswith(p)] *)
Definition startswith (s p : string) : bool := String.prefix p s.

(** [c in s] for a one-character [c] *)
Fixpoint contains_char (c : ascii) (s : string) : bool :=
  match s with
  | EmptyString => false
  | String d s' => if Ascii.eqb c d then true else contains_char c s'
  end.

(** [s.endswith(c)] for a one-character [c] *)
Fixpoint endswith_char (s : string) (c : ascii) : bool :=
  match s with
  | EmptyString => false
  | String d EmptyString => Ascii.eqb c d
  | String _ s' => endswith_char s' c
  end.

(** [s.replace(old, new)] for a non-empty [old]: every non-overlapping
    occurrence of [old], scanning from the left, becomes [new]. *)
Equations? replace (old new s : string) : string by wf (String.length s) lt :=
  replace old new EmptyString := EmptyString;
  replace old new (String c s') :=
    if String.prefix old (String c s')
    then new +:+ replace old new (drop (Nat.pred (String.length old)) s')
    else String c (replace old new s').
Proof.
  all: pose proof (length_drop (Nat.pred (String.length old)) s'); simpl; lia.
Qed.

(** [sep.join(l)] on a list of strings *)
Fixpoint join (sep : string) (l : list string) : string :=
  match l with
  | [] => ""
  | [x] => x
  | x :: l' => x +:+ sep +:+ join sep l'
  end.

(** [s.lower()] on ASCII letters *)
Definition lower_char (c : ascii) : ascii :=
  let n := Ascii.N_of_ascii c in
  if ((65 <=? n) && (n <=? 90))%N then Ascii.ascii_of_N (n + 32) else c.

Fixpoint lower (s : string) : string :=
  match s with
  | EmptyString => EmptyString
  | String c s' => String (lower_char c) (lower s')
  end.

(** [s.rstrip('/')] *)
Fixpoint rstrip_slash (s : string) : string :=
  match s with
  | EmptyString => EmptyString
  | String c s' =>
      let r := rstrip_slash s' in
      if Ascii.eqb c "/" && String.eqb r "" then EmptyString else String c r
  end.

(** [s == '/' * len(s)] *)
Fixpoint all_slashes (s : string) : bool :=
  match s with
  | EmptyString => true
  | String c s' => Ascii.eqb c "/" && all_slashes s'
  end.

(** The pair [(s[:i], s[i:])] for [i = s.rfind('/') + 1], computed in one
    pass: [hd] is everything up to and including the last slash seen so
    far and [tl] what follows it. *)
Fixpoint rsplit_slash_go (hd tl s : string) : string * string :=
  match s with
  | EmptyString => (hd, tl)
  | String c s' =>
      if Ascii.eqb c "/"
      then rsplit_slash_go (hd +:+ tl +:+ "/") "" s'
      else rsplit_slash_go hd (tl +:+ String c "") s'
  end.

Definition rsplit_slash (s : string) : string * string :=
  rsplit_slash_go "" "" s.

(** What reading in text mode makes of the line ends of a file (universal
    newlines, the default of [open]): a carriage return, with the line feed
    after it if there is one, is read as one line feed. *)
Fixpoint universal_newlines (s : string) : string :=
  match s with
  | EmptyString => EmptyString
  | String c s' =>
      if Ascii.eqb c "013" then
        match s' with
        | String "010" s'' => String "010" (universal_newlines s'')
        | _ => String "010" (universal_newlines s')
        end
      else String c (universal_newlines s')
  end.

(** One of the digits [0123456789abcdef] *)
Definition hex_digit (n : N) : ascii :=
  default "0"%char (String.get (N.to_nat n) "0123456789abcdef").

(** What [repr] writes for one character inside the quotes [quote]: the
    quote itself and the backslash get a backslash, tab, line feed and
    carriage return their letter, any other control character its code
    in hexadecimal. *)
Definition repr_char (quote : ascii) (c : ascii) : string :=
  let n := Ascii.N_of_ascii c in
  if Ascii.eqb c quote || Ascii.eqb c "092"
  then String "092" (String c "")
  else if Ascii.eqb c "009" then String "092" "t"
  else if Ascii.eqb c "010" then String "092" "n"
  else if Ascii.eqb c "013" then String "092" "r"
  else if ((n <? 32) || (n =? 127))%N
  then String "092"
         (String "x" (String (hex_digit (n / 16)) (String (hex_digit (n mod 16)) "")))
  else String c "".

Fixpoint repr_chars (quote : ascii) (s : string) : string :=
  match s with
  | EmptyString => EmptyString
  | String c s' => repr_char quote c +:+ repr_chars quote s'
  end.

(** [repr(s)]: between apostrophes, or between double quotes when [s] holds
    an apostrophe and no double quote.  Bytes above 127 are taken to be part
    of printable characters and are kept as they are. *)
Definition repr (s : string) : string :=
  let quote : ascii :=
    if contains_char "039" s && negb (contains_char "034" s)
    then "034"%char else "039"%char in
  String quote (repr_chars quote s) +:+ String quote "".

(** [str(n)] for an integer *)
Definition str_of_int (n : Z) : string := pretty n.

End PyStr.

(** Line feed and double quote, which string literals cannot hold. *)
Definition LF : string := String "010"%char "".
Definition DQ : string := String "034"%char "".

(** ** Exceptions raised in the adapters and in the library calls they make *)

Inductive exn : Type :=
| NotImplementedError (msg : string)
| ValueError (msg : string)
| TypeError (msg : string)
| OverflowError (msg : string)
| TimeoutError                      (* builtins.TimeoutError *)
| timeout_decorator_TimeoutError    (* timeout_decorator.TimeoutError *)
| FileExistsError (path : string)
| FileNotFoundError (path : string)
| NotADirectoryError (path : string)
| IsADirectoryError (path : string)
| NoSectionError (section : string)
| DuplicateOptionError (section option : string)
| ConfigurationError (msg : string)
| LaunchError (msg : string).

(** ** The world the adapters act on *)

Inductive node : Type :=
| Dir
| File (content : string).

Definition is_dir (o : option node) : bool :=
  match o with Some Dir => true | _ => false end.

Inductive level : Type := DEBUG | WARNING.

(** What a process started in a container does: it runs for [elapsed]
    seconds, prints [output] and leaves with [status], or the platform
    cannot start it at all.  The engines are black boxes, so this is all
    the adapters see of them. *)
Inductive run : Type :=
| Exits (elapsed : Z) (status : Z) (output : string)
| CannotStart (msg : string).

Record World : Type := mkWorld {
  fs : gmap string node;             (* host file system, by absolute path *)
  cwd : string;                      (* os.getcwd() *)
  umask : Z;                         (* process file-mode creation mask *)
  total_memory : Z;                  (* psutil.virtual_memory().total *)
  clock : Z;                         (* wall clock, in seconds *)
  alarm : option Z;                  (* time at which SIGALRM is due *)
  engine : nat → string → run;       (* the n-th process, by command line *)
  launched : list string;            (* commands handed over to be started *)
  log : list (level * string);       (* records handed to the logger *)
  written : list (string * string);  (* files written: path and content *)
}.

Definition set_fs (m : gmap string node) (w : World) : World :=
  mkWorld m (cwd w) (umask w) (total_memory w) (clock w) (alarm w)
          (engine w) (launched w) (log w) (written w).
Definition set_umask (m : Z) (w : World) : World :=
  mkWorld (fs w) (cwd w) m (total_memory w) (clock w) (alarm w)
          (engine w) (launched w) (log w) (written w).
Definition set_clock (t : Z) (w : World) : World :=
  mkWorld (fs w) (cwd w) (umask w) (total_memory w) t (alarm w)
          (engine w) (launched w) (log w) (written w).
Definition set_alarm (a : option Z) (w : World) : World :=
  mkWorld (fs w) (cwd w) (umask w) (total_memory w) (clock w) a
          (engine w) (launched w) (log w) (written w).
Definition add_launched (cmd : string) (w : World) : World :=
  mkWorld (fs w) (cwd w) (umask w) (total_memory w) (clock w) (alarm w)
          (engine w) (launched w ++ [cmd]) (log w) (written w).
Definition add_log (l : level) (msg : string) (w : World) : World :=
  mkWorld (fs w) (cwd w) (umask w) (total_memory w) (clock w) (alarm w)
          (engine w) (launched w) (log w ++ [(l, msg)]) (written w).
Definition add_written (path content : string) (w : World) : World :=
  mkWorld (<[path := File content]> (fs w)) (cwd w) (umask w) (total_memory w)
          (clock w) (alarm w) (engine w) (launched w) (log w)
          (written w ++ [(path, content)]).

(** ** State and exception monad *)

Definition M (A : Type) : Type := World → (exn + A) * World.

Definition ret {A} (a : A) : M A := λ w, (inr a, w).
Definition raise {A} (e : exn) : M A := λ w, (inl e, w).
Definition bind {A B} (m : M A) (k : A → M B) : M B :=
  λ w, match m w with
       | (inl e, w') => (inl e, w')
       | (inr a, w') => k a w'
       end.
Definition lift {A} (r : exn + A) : M A := λ w, (r, w).
Definition gets {A} (f : World → A) : M A := λ w, (inr (f w), w).
Definition modify (f : World → World) : M unit := λ w, (inr tt, f w).

(** [try: m except E: h], where [handles] tells which exceptions are
    instances of [E]. *)
Definition try_except {A} (m : M A) (handles : exn → bool) (h : M A) : M A :=
  λ w, match m w with
       | (inl e, w') => if handles e then h w' else (inl e, w')
       | r => r
       end.

Notation "x <- m ;; k" := (bind m (λ x, k))
  (at level 100, m at next level, right associativity).
Notation "m ;;; k" := (bind m (λ _, k))
  (at level 100, right associativity).

(** Pure computations that may raise. *)
Definition pbind {A B} (r : exn + A) (k : A → exn + B) : exn + B :=
  match r with inl e => inl e | inr a => k a end.

(** ** [os] and [os.path] (posixpath) *)

Module os.

Module path.

(** [os.path.join(a, b)] *)
Definition join (a b : string) : string :=
  if PyStr.startswith b "/" then b
  else if String.eqb a "" || PyStr.endswith_char a "/" then a +:+ b
  else a +:+ "/" +:+ b.

(** [os.path.basename(p)] *)
Definition basename (p : string) : string := snd (PyStr.rsplit_slash p).

(** [os.path.split(p)] *)
Definition split (p : string) : string * string :=
  let '(head, tail) := PyStr.rsplit_slash p in
  if negb (String.eqb head "") && negb (PyStr.all_slashes head)
  then (PyStr.rstrip_slash head, tail)
  else (head, tail).

(** [os.path.dirname(p)] *)
Definition dirname (p : string) : string := fst (split p).

(** [os.path.isabs(p)] *)
Definition isabs (p : string) : bool := PyStr.startswith p "/".

(** [p.split('/')] *)
Fixpoint components_go (cur s : string) : list string :=
  match s with
  | EmptyString => [cur]
  | String c s' =>
      if Ascii.eqb c "/" then cur :: components_go "" s'
      else components_go (cur +:+ String c "") s'
  end.
Definition components (p : string) : list string := components_go "" p.

(** One turn of the loop of [normpath]; [new_comps] is kept with its
    last element first. *)
Definition normpath_step (initial_slashes : nat) (new_comps : list string)
    (comp : string) : list string :=
  if String.eqb comp "" || String.eqb comp "." then new_comps
  else if negb (String.eqb comp "..")
          || (Nat.eqb initial_slashes 0 && match new_comps with [] => true | _ => false end)
          || match new_comps with
             | last :: _ => String.eqb last ".."
             | [] => false
             end
  then comp :: new_comps
  else match new_comps with
       | _ :: rest => rest
       | [] => []
       end.

(** [os.path.normpath(p)] *)
Definition normpath (p : string) : string :=
  if String.eqb p "" then "."
  else
    let initial_slashes :=
      if PyStr.startswith p "/" then
        if PyStr.startswith p "//" && negb (PyStr.startswith p "///")
        then 2%nat else 1%nat
      else 0%nat in
    let comps := rev (fold_left (normpath_step initial_slashes) (components p) []) in
    let joined := PyStr.join "/" comps in
    let joined :=
      match initial_slashes with
      | 0%nat => joined
      | 1%nat => "/" +:+ joined
      | _ => "//" +:+ joined
      end in
    if String.eqb joined "" then "." else joined.

(** [os.path.abspath(p)] *)
Definition abspath (p : string) : M string :=
  λ w, (inr (normpath (if isabs p then p else join (cwd w) p)), w).

End path.

(** [os.umask(mask)]; the previous mask it returns is not used. *)
Definition umask (mask : Z) : M unit := modify (set_umask mask).

(** The directories named on the way to [p], outermost first: for
    [/a/b/c] these are [/a], [/a/b] and [/a/b/c].  The root and the
    working directory always exist and are not listed. *)
Fixpoint ancestors_go (acc s : string) : list string :=
  match s with
  | EmptyString =>
      if String.eqb acc "" || PyStr.endswith_char acc "/" then [] else [acc]
  | String c s' =>
      if Ascii.eqb c "/"
      then (if String.eqb acc "" || PyStr.endswith_char acc "/" then [] else [acc])
             ++ ancestors_go (acc +:+ "/") s'
      else ancestors_go (acc +:+ String c "") s'
  end.
Definition ancestors (p : string) : list string := ancestors_go "" p.

(** Creation of the missing directories among [dirs], outermost first. A
    regular file in the way stops it: [FileExistsError] for the leaf
    [name]; above it, [NotADirectoryError] for the directory that was to
    be made inside the file. *)
Fixpoint makedirs_go (name : string) (dirs : list string) (m : gmap string node)
    : (exn + unit) * gmap string node :=
  match dirs with
  | [] => (inr tt, m)
  | a :: rest =>
      match m !! a with
      | Some (File _) =>
          (inl (if String.eqb a name then FileExistsError a
                else NotADirectoryError (match rest with
                                         | child :: _ => child
                                         | [] => name
                                         end)), m)
      | _ => makedirs_go name rest (<[a := Dir]> m)
      end
  end.

(** [os.makedirs(name, exist_ok=exist_ok)]: the leaf directory and every
    missing intermediate one are created; a leaf that is already a
    directory is an error only without [exist_ok]. *)
Definition makedirs (name : string) (exist_ok : bool) : M unit :=
  λ w, if negb exist_ok && is_dir (fs w !! name)
       then (inl (FileExistsError name), w)
       else let '(r, m) := makedirs_go name (ancestors name) (fs w) in
            (r, set_fs m w).

(** Whether [d] names an existing directory; the root and the working
    directory (the empty head of a relative path) always do. *)
Definition isdir (m : gmap string node) (d : string) : bool :=
  PyStr.all_slashes d || is_dir (m !! d).

End os.

(** [with open(path, 'w') as f: f.write(content)]: the file is created or
    truncated, so the content replaces what was there. *)
Definition write_file (path content : string) : M unit :=
  λ w, match fs w !! path with
       | Some Dir => (inl (IsADirectoryError path), w)
       | _ => if os.isdir (fs w) (os.path.dirname path)
              then (inr tt, add_written path content w)
              else (inl (FileNotFoundError path), w)
       end.

(** [with open(path, 'r') as f: data = f.read()]: text mode, so the line
    ends are translated. *)
Definition read_file (path : string) : M string :=
  λ w, match fs w !! path with
       | Some (File content) => (inr (PyStr.universal_newlines content), w)
       | Some Dir => (inl (IsADirectoryError path), w)
       | None => (inl (FileNotFoundError path), w)
       end.

Notation "x <~ r ;; k" := (pbind r (λ x, k))
  (at level 100, r at next level, right associativity).

(** ** Python [float] (IEEE 754 binary64), after [SpecFloat] *)

Module PyFloat.

Definition prec : Z := 53.
Definition emax : Z := 1024.

(** [float(n)] for an integer [n]: the nearest double, ties to even;
    [OverflowError] when it is out of range. *)
Definition of_int (n : Z) : exn + spec_float :=
  match binary_normalize prec emax n 0 false with
  | S754_infinity _ => inl (OverflowError "int too large to convert to float")
  | S754_nan => inl (OverflowError "int too large to convert to float")
  | x => inr x
  end.

(** [x * y] on floats *)
Definition mul (x y : spec_float) : spec_float := SFmul prec emax x y.

(** [a / b] for small integers [a] and [b] (true division) *)
Definition true_div (a b : Z) : spec_float :=
  SFdiv prec emax (binary_normalize prec emax a 0 false)
                  (binary_normalize prec emax b 0 false).

(** [int(x)]: truncation towards zero *)
Definition to_int (x : spec_float) : exn + Z :=
  match x with
  | S754_zero _ => inr 0
  | S754_finite s m e =>
      let v := if 0 <=? e then Z.pos m * 2 ^ e else Z.pos m / 2 ^ (- e) in
      inr (if s then - v else v)
  | S754_infinity _ =>
      inl (OverflowError "cannot convert float infinity to integer")
  | S754_nan => inl (ValueError "cannot convert float NaN to integer")
  end.

(** The mantissa and exponent of the positive integer [p] once it is
    aligned on [prec] bits. *)
Definition aligned (p : positive) : positive * Z :=
  shl_align p 0 (fexp prec emax (Z.pos (digits2_pos p) + 0)).

End PyFloat.

(** [int(psutil.virtual_memory().total * (1/2))], the Java heap size of both
    adapters: the integer total is converted to a float, multiplied by the
    float [1/2] and truncated. *)
Definition max_heap (total : Z) : exn + Z :=
  t <~ PyFloat.of_int total ;;
  PyFloat.to_int (PyFloat.mul t (PyFloat.true_div 1 2)).

(** ** [configparser.ConfigParser], as far as the adapter uses it *)

Module configparser.

(** A section is a dictionary in insertion order; the parser holds its
    sections in insertion order too. *)
Definition section : Type := list (string * string).
Definition ConfigParser : Type := list (string * section).

(** [ConfigParser()] *)
Definition new : ConfigParser := [].

(** [d[k] = v] on an insertion-ordered dictionary *)
Fixpoint dict_set {V} (k : string) (v : V) (d : list (string * V))
    : list (string * V) :=
  match d with
  | [] => [(k, v)]
  | (k', v') :: d' =>
      if String.eqb k k' then (k, v) :: d' else (k', v') :: dict_set k v d'
  end.

Fixpoint dict_get {V} (k : string) (d : list (string * V)) : option V :=
  match d with
  | [] => None
  | (k', v') :: d' => if String.eqb k k' then Some v' else dict_get k d'
  end.

(** [optionxform]: option names are lower-cased *)
Definition optionxform (option : string) : string := PyStr.lower option.

(** Position of the first [")"] *)
Fixpoint find_close (s : string) : option nat :=
  match s with
  | EmptyString => None
  | String c s' =>
      if Ascii.eqb c ")" then Some O else S <$> find_close s'
  end.

(** Length of the match of [_KEYCRE = %\(([^)]+)\)s] at the start of [s] *)
Definition keycre_match (s : string) : option nat :=
  match s with
  | String "%" (String "(" rest) =>
      match find_close rest with
      | Some (S n) =>
          match String.get (S (S n)) rest with
          | Some "s"%char => Some (n + 5)%nat
          | _ => None
          end
      | _ => None
      end
  | _ => None
  end.

(** [_KEYCRE.sub('', s)] *)
Equations? keycre_sub (s : string) : string by wf (String.length s) lt :=
  keycre_sub EmptyString := EmptyString;
  keycre_sub (String c s') :=
    match keycre_match (String c s') with
    | Some n => keycre_sub (PyStr.drop (Nat.pred n) s')
    | None => String c (keycre_sub s')
    end.
Proof.
  all: pose proof (PyStr.length_drop (Nat.pred n) s'); simpl; lia.
Qed.

(** Position of the first [c] in [s], for the error message *)
Fixpoint find_char (c : ascii) (s : string) : nat :=
  match s with
  | EmptyString => O
  | String d s' => if Ascii.eqb c d then O else S (find_char c s')
  end.

(** [BasicInterpolation.before_set]: a value whose percent signs are
    neither doubled nor part of a [%(name)s] reference is refused.  The
    message has the [repr] of the value. *)
Definition before_set (value : string) : exn + string :=
  let tmp_value := PyStr.replace "%%" "" value in
  let tmp_value := keycre_sub tmp_value in
  if PyStr.contains_char "%" tmp_value
  then inl (ValueError ("invalid interpolation syntax in " +:+ PyStr.repr value
                        +:+ " at position "
                        +:+ pretty (Z.of_nat (find_char "%" tmp_value))))
  else inr value.

(** [parser.set(section, option, value)] on a named section *)
Definition set (sect option value : string) (cfg : ConfigParser)
    : exn + ConfigParser :=
  value <~ (if String.eqb value "" then inr value else before_set value) ;;
  match dict_get sect cfg with
  | None => inl (NoSectionError sect)
  | Some sectdict =>
      inr (dict_set sect (dict_set (optionxform option) value sectdict) cfg)
  end.

(** The loop of [read_dict] over the keys of one section; [seen] are the
    options already added, which a strict parser refuses to see twice. *)
Fixpoint read_items (sect : string) (seen : list string)
    (items : list (string * string)) (cfg : ConfigParser)
    : exn + ConfigParser :=
  match items with
  | [] => inr cfg
  | (k, v) :: rest =>
      let key := optionxform k in
      if existsb (String.eqb key) seen
      then inl (DuplicateOptionError sect key)
      else cfg <~ set sect key v cfg ;; read_items sect (key :: seen) rest cfg
  end.

(** [parser[key] = value] for a dictionary [value]: the section is
    emptied if it exists, added otherwise, and filled by [read_dict]. *)
Definition setitem (key : string) (value : list (string * string))
    (cfg : ConfigParser) : exn + ConfigParser :=
  read_items key [] value (dict_set key [] cfg).

(** [parser[sect][option] = value] *)
Definition setitem_option (sect option value : string) (cfg : ConfigParser)
    : exn + ConfigParser :=
  set sect option value cfg.

Definition TAB : string := String "009"%char "".

(** One [key=value] line of [_write_section] *)
Definition write_item (d : string) (kv : string * string) : string :=
  fst kv +:+ d +:+ PyStr.replace LF (LF +:+ TAB) (snd kv) +:+ LF.

Fixpoint concat_map {A} (f : A → string) (l : list A) : string :=
  match l with
  | [] => ""
  | x :: l' => f x +:+ concat_map f l'
  end.

(** [_write_section] *)
Definition write_section (d : string) (s : string * section) : string :=
  "[" +:+ fst s +:+ "]" +:+ LF +:+ concat_map (write_item d) (snd s) +:+ LF.

(** What [parser.write(fp, space_around_delimiters)] writes to [fp] *)
Definition write (cfg : ConfigParser) (space_around_delimiters : bool)
    : string :=
  let d := if space_around_delimiters then " = " else "=" in
  concat_map (write_section d) cfg.

End configparser.

(** ** Collaborators of the adapters *)

(** Modelled from the spec: [bench_executor/logger.py] is not among the
    sources.  The spec has the logger as a structured, leveled log sink
    handed to every component; a record is kept of each message with its
    level. *)
Record Logger : Type := mkLogger {
  logger_name : string;
  logger_directory : string;
  logger_verbose : bool;
}.

Definition Logger_debug (self : Logger) (msg : string) : M unit :=
  modify (add_log DEBUG msg).
Definition Logger_warning (self : Logger) (msg : string) : M unit :=
  modify (add_log WARNING msg).

(** The base class of the adapters. *)
Record Container : Type := mkContainer {
  container_image : string;
  container_name : string;
  container_logger : Logger;
  expect_failure : bool;
  volumes : list (string * string);   (* host path, container path *)
}.

(** A binding [host:container] cut at its first colon. *)
Fixpoint parse_volume_go (host s : string) : option (string * string) :=
  match s with
  | EmptyString => None
  | String c s' =>
      if Ascii.eqb c ":" then Some (host, s')
      else parse_volume_go (host +:+ String c "") s'
  end.

Definition parse_volume (v : string) : exn + (string * string) :=
  match parse_volume_go "" v with
  | Some (host, target) =>
      if String.eqb host "" || String.eqb target ""
         || negb (os.path.isabs target)
      then inl (ConfigurationError v)
      else inr (host, target)
  | None => inl (ConfigurationError v)
  end.

(** The bindings in the order given; a container path is bound once. *)
Fixpoint parse_volumes (seen : list string) (vs : list string)
    : exn + list (string * string) :=
  match vs with
  | [] => inr []
  | v :: vs' =>
      b <~ parse_volume v ;;
      if existsb (String.eqb (snd b)) seen
      then inl (ConfigurationError v)
      else bs <~ parse_volumes (snd b :: seen) vs' ;; inr (b :: bs)
  end.

(** The host directories of the bindings are made where they are missing. *)
Fixpoint ensure_host_directories (bs : list (string * string)) : M unit :=
  match bs with
  | [] => ret tt
  | b :: bs' =>
      try_except (os.makedirs (fst b) true) (λ _, true)
                 (raise (ConfigurationError (fst b))) ;;;
      ensure_host_directories bs'
  end.

(** Modelled from the spec: [bench_executor/container.py] is not among the
    sources.  Construction validates the volumes (no empty path, the
    container path absolute, no container path bound twice), makes sure the
    host directories exist, and fails with [ConfigurationError] when a
    binding is bad or a host path cannot be created. *)
Definition Container__init__ (container name : string) (logger : Logger)
    (expect_failure : bool) (volumes : list string) : M Container :=
  bs <- lift (parse_volumes [] volumes) ;;
  ensure_host_directories bs ;;;
  ret (mkContainer container name logger expect_failure bs).

(** Modelled from the spec: [Container.run_and_wait_for_exit] is not among
    the sources.  The command is handed to the platform; a process that
    cannot be started is a [LaunchError]; otherwise the call blocks until
    the process leaves, its output goes to the logger at debug level, and
    status 0 is success unless a failure is expected, in which case any
    other status is.  A pending alarm that is due before the process
    leaves interrupts the wait with the alarm's exception. *)
Definition run_and_wait_for_exit (self : Container) (command : string)
    : M bool :=
  λ w,
    let w1 := add_launched command w in
    match engine w (length (launched w)) command with
    | CannotStart msg => (inl (LaunchError msg), w1)
    | Exits elapsed status output =>
        let interrupted :=
          match alarm w with
          | Some t => t <? clock w + elapsed
          | None => false
          end in
        if interrupted
        then (inl timeout_decorator_TimeoutError,
              set_clock (default 0 (alarm w)) w1)
        else (inr (if expect_failure self then negb (status =? 0)
                   else status =? 0),
              add_log DEBUG output (set_clock (clock w + elapsed) w1))
    end.

(** [@timeout(seconds)] of [timeout_decorator]: an alarm is set for the
    time of the call; when it goes off the blocked call raises the
    decorator's own [TimeoutError].  The alarm is cleared on the way
    out. *)
Definition timeout {A} (seconds : Z) (f : M A) : M A :=
  λ w, let '(r, w') := f (set_alarm (Some (clock w + seconds)) w) in
       (r, set_alarm None w').

(** Values found in an argument list: strings, and the integer that the
    signature of [execute_mapping] allows for [base_iri]. *)
Inductive pyval : Type :=
| PStr (s : string)
| PInt (n : Z).

(** [sep.join(items)]: the first item that is not a string is a
    [TypeError]. *)
Fixpoint str_join_go (i : nat) (items : list pyval) : exn + list string :=
  match items with
  | [] => inr []
  | PStr s :: rest => l <~ str_join_go (S i) rest ;; inr (s :: l)
  | PInt _ :: _ =>
      inl (TypeError ("sequence item " +:+ pretty (Z.of_nat i)
                      +:+ ": expected str instance, int found"))
  end.

Definition str_join (sep : string) (items : list pyval) : exn + string :=
  l <~ str_join_go 0 items ;; inr (PyStr.join sep l).

(** ** [burp.py] *)

Module BURP.

Definition VERSION : string := "1.0.0".
Definition TIMEOUT : Z := 6 * 3600.
Definition __name__ : string := "bench_executor.burp".

(** The adapter: the fields of [self], [super] being the container it
    extends. *)
Record t : Type := mk {
  _data_path : string;
  _config_path : string;
  _logger : Logger;
  _verbose : bool;
  super : Container;
}.

(** [BURP.__init__] *)
Definition __init__ (data_path config_path directory : string)
    (verbose expect_failure : bool) : M t :=
  _data_path <- os.path.abspath data_path ;;
  _config_path <- os.path.abspath config_path ;;
  let _logger := mkLogger __name__ directory verbose in
  os.makedirs (os.path.join _data_path "burp") true ;;;
  c <- Container__init__ ("kgconstruct/burp:v" +:+ VERSION) "BURP" _logger
         expect_failure
         [_data_path +:+ "/burp:/data";
          _data_path +:+ "/shared:/data/shared"] ;;
  ret (mk _data_path _config_path _logger verbose c).

(** [BURP.root_mount_directory] *)
Definition root_mount_directory (self : t) : string := PyStr.lower __name__.

(** [BURP._execute_with_timeout], with its decorator.  The argument list
    is joined twice, for the command and for the debug message. *)
Definition _execute_with_timeout (self : t) (arguments : list pyval)
    : M bool :=
  timeout TIMEOUT (
    total <- gets total_memory ;;
    max_heap <- lift (max_heap total) ;;
    let cmd := "java -Xmx" +:+ PyStr.str_of_int max_heap
               +:+ " -Xms" +:+ PyStr.str_of_int max_heap
               +:+ " -jar burp/burp.jar" in
    let cmd := if _verbose self then cmd +:+ " -vvvvvvvvvvvvv" else cmd in
    joined <- lift (str_join " " arguments) ;;
    let cmd := cmd +:+ " " +:+ joined in
    joined <- lift (str_join " " arguments) ;;
    Logger_debug (_logger self) ("Executing BURP with arguments " +:+ joined) ;;;
    run_and_wait_for_exit (super self) cmd).

(** The [TimeoutError] that [burp.py] imports from [timeout_decorator]. *)
Definition is_TimeoutError (e : exn) : bool :=
  match e with timeout_decorator_TimeoutError => true | _ => false end.

(** [BURP.execute] *)
Definition execute (self : t) (arguments : list pyval) : M bool :=
  try_except (_execute_with_timeout self arguments) is_TimeoutError
    (let msg := "Timeout (" +:+ PyStr.str_of_int TIMEOUT
                +:+ "s) reached for BURP" in
     Logger_warning (_logger self) msg ;;;
     ret false).

(** The argument list that [execute_mapping] builds.  [base_iri] is
    appended as it comes. *)
Definition arguments_of (mapping_file : string) (output_file : option string)
    (base_iri : option pyval) : list pyval :=
  let arguments := [PStr "-m"; PStr (os.path.join "/data/shared/" mapping_file)] in
  let arguments :=
    match output_file with
    | Some output_file =>
        arguments ++ [PStr "-o"]
                  ++ [PStr (os.path.join "/data/shared/" output_file)]
    | None => arguments
    end in
  match base_iri with
  | Some base_iri => arguments ++ [PStr "-b"] ++ [base_iri]
  | None => arguments
  end.

(** [BURP.execute_mapping]; [serialization] is not looked at. *)
Definition execute_mapping (self : t) (mapping_file serialization : string)
    (output_file : option string) (base_iri : option pyval) : M bool :=
  execute self (arguments_of mapping_file output_file base_iri).

End BURP.

(** ** [morphrdb.py] *)

Module MorphRDB.

Definition VERSION : string := "3.12.5".
Definition TIMEOUT : Z := 6 * 3600.
Definition __name__ : string := "bench_executor.morphrdb".

Record t : Type := mk {
  _data_path : string;
  _config_path : string;
  _logger : Logger;
  super : Container;
}.

(** [MorphRDB.__init__] *)
Definition __init__ (data_path config_path directory : string)
    (verbose : bool) : M t :=
  _data_path <- os.path.abspath data_path ;;
  _config_path <- os.path.abspath config_path ;;
  let _logger := mkLogger __name__ directory verbose in
  os.umask 0 ;;;
  os.makedirs (os.path.join _data_path "morphrdb") true ;;;
  c <- Container__init__ ("blindreviewing/morph-rdb:v" +:+ VERSION)
         "Morph-RDB" _logger false
         [_data_path +:+ "/shared:/data/shared";
          _data_path +:+ "/morphrdb:/data"] ;;
  ret (mk _data_path _config_path _logger c).

(** [MorphRDB.root_mount_directory] *)
Definition root_mount_directory (self : t) : string := PyStr.lower __name__.

(** [MorphRDB._execute_with_timeout]: no decorator here, and the arguments
    are not used. *)
Definition _execute_with_timeout (self : t) (arguments : list pyval)
    : M bool :=
  total <- gets total_memory ;;
  max_heap <- lift (max_heap total) ;;
  let cmd := "java -Xmx" +:+ PyStr.str_of_int max_heap
             +:+ " -Xms" +:+ PyStr.str_of_int max_heap +:+ " "
             +:+ "-cp .:morph-rdb-dist-3.12.6.jar:dependency/* "
             +:+ "es.upm.fi.dia.oeg.morph.r2rml.rdb.engine.MorphRDBRunner "
             +:+ "/data config.properties" in
  success <- run_and_wait_for_exit (super self) cmd ;;
  ret success.

(** [morphrdb.py] imports no [TimeoutError], so the name is the builtin
    one. *)
Definition is_TimeoutError (e : exn) : bool :=
  match e with TimeoutError => true | _ => false end.

(** [MorphRDB.execute] *)
Definition execute (self : t) (arguments : list pyval) : M bool :=
  try_except (_execute_with_timeout self arguments) is_TimeoutError
    (let msg := "Timeout (" +:+ PyStr.str_of_int TIMEOUT
                +:+ "s) reached for Morph-RDB" in
     Logger_warning (_logger self) msg ;;;
     ret false).

(** The first part of [execute_mapping], which touches nothing outside:
    the engine's word for the serialization, then the configuration.  The
    serialization is checked first; the database keys are set only when
    all six credentials are given, the name before the kind is looked
    at. *)
Definition config_of (mapping_file output_file serialization : string)
    (rdb_username rdb_password rdb_host rdb_port rdb_name rdb_type
       : option string) : exn + configparser.ConfigParser :=
  serialization <~
    (if String.eqb serialization "nquads" then inr "N-QUADS"
     else if String.eqb serialization "ntriples" then inr "N-TRIPLE"
     else inl (NotImplementedError ("Unsupported serialization: "
                                    +:+ DQ +:+ serialization +:+ DQ))) ;;
  let config := configparser.new in
  let mapping_file := os.path.join "shared" (os.path.basename mapping_file) in
  let output_file := os.path.join "shared" (os.path.basename output_file) in
  config <~ configparser.setitem "root"
              [("mappingdocument.file.path", mapping_file);
               ("output.file.path", output_file);
               ("output.rdflanguage", serialization)] config ;;
  match rdb_username, rdb_password, rdb_host, rdb_port, rdb_name, rdb_type with
  | Some rdb_username, Some rdb_password, Some rdb_host, Some rdb_port,
    Some rdb_name, Some rdb_type =>
      config <~ configparser.setitem_option "root" "database.name[0]"
                  rdb_name config ;;
      config <~
        (if String.eqb rdb_type "MySQL" then
           config <~ configparser.setitem_option "root" "database.driver[0]"
                       "com.mysql.jdbc.Driver" config ;;
           config <~ configparser.setitem_option "root" "database.type[0]"
                       "mysql" config ;;
           let dsn := "jdbc:mysql://" +:+ rdb_host +:+ ":" +:+ rdb_port
                      +:+ "/" +:+ rdb_name
                      +:+ "?allowPublicKeyRetrieval=true&useSSL=false" in
           configparser.setitem_option "root" "database.url[0]" dsn config
         else if String.eqb rdb_type "PostgreSQL" then
           config <~ configparser.setitem_option "root" "database.driver[0]"
                       "org.postgresql.Driver" config ;;
           config <~ configparser.setitem_option "root" "database.type[0]"
                       "postgresql" config ;;
           let dsn := "jdbc:postgresql://" +:+ rdb_host +:+ ":" +:+ rdb_port
                      +:+ "/" +:+ rdb_name in
           configparser.setitem_option "root" "database.url[0]" dsn config
         else inl (ValueError ("Unknown RDB type: "
                               +:+ DQ +:+ rdb_type +:+ DQ))) ;;
      config <~ configparser.setitem_option "root" "database.user[0]"
                  rdb_username config ;;
      config <~ configparser.setitem_option "root" "database.pwd[0]"
                  rdb_password config ;;
      configparser.setitem_option "root" "no_of_database" "1" config
  | _, _, _, _, _, _ => inr config
  end.

(** Where the configuration goes: [<data_path>/morphrdb/config.properties] *)
Definition config_path (self : t) : string :=
  os.path.join (os.path.join (_data_path self) "morphrdb") "config.properties".

(** [MorphRDB.execute_mapping]: the configuration is written with its
    [[root]] header, read back, and written again without it. *)
Definition execute_mapping (self : t)
    (mapping_file output_file serialization : string)
    (rdb_username rdb_password rdb_host rdb_port rdb_name rdb_type
       : option string) : M bool :=
  config <- lift (config_of mapping_file output_file serialization
                    rdb_username rdb_password rdb_host rdb_port rdb_name
                    rdb_type) ;;
  let path := os.path.join (_data_path self) "morphrdb" in
  os.umask 0 ;;;
  os.makedirs path true ;;;
  write_file (os.path.join path "config.properties")
             (configparser.write config false) ;;;
  data <- read_file (os.path.join path "config.properties") ;;
  write_file (os.path.join path "config.properties")
             (PyStr.replace ("[root]" +:+ LF) "" data) ;;;
  execute self [].

End MorphRDB.

(** ** A small case to run the adapters on *)

Module Case.

(** Sixteen gigabytes of memory, an empty file system, and an engine that
    leaves with status 0 after ten seconds. *)
Definition world : World :=
  mkWorld ∅ "/home/bench" 18 17179869184 0 None
          (λ _ _, Exits 10 0 "done") [] [] [].

(** The same host with an engine that needs a second more than six
    hours. *)
Definition slow_world : World :=
  mkWorld ∅ "/home/bench" 18 17179869184 0 None
          (λ _ _, Exits 21601 0 "done") [] [] [].

Definition logger (name : string) : Logger := mkLogger name "/log" false.

Definition burp : BURP.t :=
  BURP.mk "/data/case" "/config" (logger BURP.__name__) false
    (mkContainer "kgconstruct/burp:v1.0.0" "BURP" (logger BURP.__name__) false
       [("/data/case/burp", "/data"); ("/data/case/shared", "/data/shared")]).

Definition morphrdb : MorphRDB.t :=
  MorphRDB.mk "/data/case" "/config" (logger MorphRDB.__name__)
    (mkContainer "blindreviewing/morph-rdb:v3.12.5" "Morph-RDB"
       (logger MorphRDB.__name__) false
       [("/data/case/shared", "/data/shared");
        ("/data/case/morphrdb", "/data")]).

End Case.

(** ** Vocabulary of the statements *)

(** The engine's word for a serialization, when it has one. *)
Definition token (serialization : string) : option string :=
  if String.eqb serialization "nquads" then Some "N-QUADS"
  else if String.eqb serialization "ntriples" then Some "N-TRIPLE"
  else None.

(** The three options every configuration has. *)
Definition base_items (mapping_file output_file tok : string)
    : configparser.section :=
  [("mappingdocument.file.path",
    os.path.join "shared" (os.path.basename mapping_file));
   ("output.file.path", os.path.join "shared" (os.path.basename output_file));
   ("output.rdflanguage", tok)].

(** The seven options of a database, present when all six credentials are
    given and the kind is one of the two known ones. *)
Definition database_items
    (rdb_username rdb_password rdb_host rdb_port rdb_name rdb_type
       : option string) : configparser.section :=
  match rdb_username, rdb_password, rdb_host, rdb_port, rdb_name, rdb_type with
  | Some u, Some p, Some h, Some port, Some name, Some kind =>
      if String.eqb kind "MySQL" then
        [("database.name[0]", name);
         ("database.driver[0]", "com.mysql.jdbc.Driver");
         ("database.type[0]", "mysql");
         ("database.url[0]",
          "jdbc:mysql://" +:+ h +:+ ":" +:+ port +:+ "/" +:+ name
          +:+ "?allowPublicKeyRetrieval=true&useSSL=false");
         ("database.user[0]", u);
         ("database.pwd[0]", p);
         ("no_of_database", "1")]
      else if String.eqb kind "PostgreSQL" then
        [("database.name[0]", name);
         ("database.driver[0]", "org.postgresql.Driver");
         ("database.type[0]", "postgresql");
         ("database.url[0]",
          "jdbc:postgresql://" +:+ h +:+ ":" +:+ port +:+ "/" +:+ name);
         ("database.user[0]", u);
         ("database.pwd[0]", p);
         ("no_of_database", "1")]
      else []
  | _, _, _, _, _, _ => []
  end.

(** What is written first, header included, and what is left in the file
    once it has been read back and written again. *)
Definition first_artifact (cfg : configparser.ConfigParser) : string :=
  configparser.write cfg false.
Definition final_artifact (cfg : configparser.ConfigParser) : string :=
  PyStr.replace ("[root]" +:+ LF) ""
    (PyStr.universal_newlines (first_artifact cfg)).


(** No line of [s] begins with an opening bracket; [bol] tells whether [s]
    starts at the beginning of a line. *)
Fixpoint no_header (bol : bool) (s : string) : bool :=
  match s with
  | EmptyString => true
  | String c s' =>
      negb (bol && Ascii.eqb c "[") && no_header (Ascii.eqb c "010") s'
  end.

(** No carriage return in [s]. *)
Fixpoint no_cr (s : string) : bool :=
  match s with
  | EmptyString => true
  | String c s' => negb (Ascii.eqb c "013") && no_cr s'
  end.

Definition no_cr_opt (o : option string) : bool :=
  match o with Some s => no_cr s | None => true end.

Definition is_ValueError (e : exn) : Prop := ∃ msg, e = ValueError msg.




(** The value passes the check that [configparser.set] makes: it is empty,
    or [before_set] lets it through. *)
Definition accepts (value : string) : bool :=
  String.eqb value ""
  || match configparser.before_set value with
     | inr _ => true
     | inl _ => false
     end.


(** No opening bracket of [s] is followed by an [r]. *)
Fixpoint no_open_r (s : string) : bool :=
  match s with
  | EmptyString => true
  | String c s' =>
      negb (Ascii.eqb c "[" && String.prefix "r" s') && no_open_r s'
  end.

(** The character [c] is not in the string, if there is one. *)
Definition opt_free (c : ascii) (o : option string) : bool :=
  match o with Some s => negb (PyStr.contains_char c s) | None => true end.

(** The sample host with a regular file where BURP wants its directory. *)
Definition blocked_world : World :=
  set_fs (<["/data" := Dir]> (<["/data/case" := Dir]>
            (<["/data/case/burp" := File "x"]> ∅))) Case.world.

(** Where BURP looks for a file: under [/data/shared/], unless the name
    is absolute. *)
Definition in_shared (p : string) : string :=
  if String.prefix "/" p then p else "/data/shared/" +:+ p.

(** The header line that is written and then taken out again. *)
Definition ROOT : string := "[root]" +:+ LF.

(** Carriage return *)
Definition CR : string := String "013" "".

(** No opening bracket in [s]. *)
Fixpoint no_bracket (s : string) : bool :=
  match s with
  | EmptyString => true
  | String c s' => negb (Ascii.eqb c "[") && no_bracket s'
  end.

(** Every directory on the way to [name] is there. *)
Definition made (name : string) (w : World) : Prop :=
  ∀ a, a ∈ os.ancestors name → fs w !! a = Some Dir.


(** * Properties *)

(** ** The heap size *)

Section Heap.

Local Abbreviation digits p := (Z.pos (digits2_pos p)).

Lemma digits2_pos_bounds p : 2 ^ (digits p - 1) <= Z.pos p < 2 ^ digits p.
Proof.
  induction p as [p IH|p IH|]; simpl digits2_pos; [| |simpl; lia].
  all: rewrite Pos2Z.inj_succ;
    replace (Z.succ (digits p) - 1) with (Z.succ (digits p - 1)) by lia;
    rewrite !Z.pow_succ_r by lia; lia.
Qed.

Lemma digits2_pos_le p n : 0 <= n → Z.pos p < 2 ^ n → digits p <= n.
Proof.
  intros Hn H. destruct (Z_le_gt_dec (digits p) n) as [|G]; [assumption|].
  pose proof (digits2_pos_bounds p) as [L _].
  assert (2 ^ n <= 2 ^ (digits p - 1)) by (apply Z.pow_le_mono_r; lia).
  lia.
Qed.

Lemma digits2_pos_iter p k :
  digits2_pos (Pos.iter xO p k) = (digits2_pos p + k)%positive.
Proof.
  induction k using Pos.peano_ind; [simpl; lia|].
  rewrite Pos.iter_succ. simpl. rewrite IHk. lia.
Qed.

Lemma iter_xO_val p k : Z.pos (Pos.iter xO p k) = Z.pos p * 2 ^ Z.pos k.
Proof.
  induction k using Pos.peano_ind; [simpl; lia|].
  rewrite Pos.iter_succ, Pos2Z.inj_succ, Z.pow_succ_r by lia.
  rewrite Pos2Z.inj_xO, IHk. lia.
Qed.

(** A mantissa of 53 bits with an exponent in range is kept as it is. *)
Lemma round_normal m e :
  digits2_pos m = 53%positive → -1074 <= e <= 971 →
  binary_round_aux 53 1024 false (Z.pos m) e loc_Exact = S754_finite false m e.
Proof.
  intros Hd He. unfold binary_round_aux, shr_fexp, Zdigits2, fexp, emin.
  rewrite Hd.
  replace (Z.max (53 + e - 53) (3 - 1024 - 53) - e) with 0 by lia.
  cbn [shr shr_record_of_loc shr_m loc_of_shr_record round_nearest_even
       shr_r shr_s Zdigits2].
  rewrite Hd.
  replace (Z.max (53 + e - 53) (3 - 1024 - 53) - e) with 0 by lia.
  cbn [shr shr_record_of_loc shr_m].
  replace (e <=? 1024 - 53) with true by (symmetry; apply Z.leb_le; lia).
  reflexivity.
Qed.

Lemma aligned_spec p : Z.pos p < 2 ^ 53 →
  digits2_pos (fst (PyFloat.aligned p)) = 53%positive
  ∧ -52 <= snd (PyFloat.aligned p) <= 0
  ∧ Z.pos (fst (PyFloat.aligned p)) = Z.pos p * 2 ^ (- snd (PyFloat.aligned p)).
Proof.
  intros Hp. pose proof (digits2_pos_le p 53 ltac:(lia) Hp) as Hd.
  unfold PyFloat.aligned, shl_align, fexp, emin, PyFloat.prec, PyFloat.emax.
  assert (0 < digits p) by lia.
  replace (Z.max (digits p + 0 - 53) (3 - 1024 - 53)) with (digits p - 53) by lia.
  rewrite Z.sub_0_r.
  destruct (digits p - 53) as [|q|q] eqn:E; try lia; cbn [fst snd].
  - repeat split; lia.
  - rewrite digits2_pos_iter, iter_xO_val. repeat split; lia.
Qed.

(** [float(p)] is exact below 2^53. *)
Lemma of_int_pos p : Z.pos p < 2 ^ 53 →
  PyFloat.of_int (Z.pos p)
  = inr (S754_finite false (fst (PyFloat.aligned p)) (snd (PyFloat.aligned p))).
Proof.
  intros Hp. destruct (aligned_spec p Hp) as (Hd & He & _).
  unfold PyFloat.of_int, binary_normalize, binary_round.
  fold (PyFloat.aligned p). destruct (PyFloat.aligned p) as [mz ez].
  cbn [fst snd] in *. unfold PyFloat.prec, PyFloat.emax.
  rewrite round_normal by (assumption || lia). reflexivity.
Qed.

Lemma half_eq : PyFloat.true_div 1 2 = S754_finite false 4503599627370496 (-53).
Proof. vm_compute. reflexivity. Qed.

(** Halving a normal number only lowers its exponent. *)
Lemma mul_half m e :
  digits2_pos m = 53%positive → -52 <= e <= 0 →
  PyFloat.mul (S754_finite false m e) (PyFloat.true_div 1 2)
  = S754_finite false m (e - 1).
Proof.
  intros Hd He. rewrite half_eq. unfold PyFloat.mul, SFmul. cbn [xorb].
  rewrite Pos.mul_comm.
  change (4503599627370496 * m)%positive with (Pos.iter xO m 52).
  unfold binary_round_aux, shr_fexp, Zdigits2, fexp, emin,
    PyFloat.prec, PyFloat.emax.
  rewrite digits2_pos_iter, Hd.
  replace (Z.max (Z.pos (53 + 52) + (e + -53) - 53) (3 - 1024 - 53) - (e + -53))
    with 52 by lia.
  cbn [shr shr_record_of_loc].
  replace (SpecFloat.iter_pos shr_1 52
             {| shr_m := Z.pos (Pos.iter xO m 52); shr_r := false; shr_s := false |})
    with {| shr_m := Z.pos m; shr_r := false; shr_s := false |} by reflexivity.
  cbn [shr_m loc_of_shr_record shr_r shr_s round_nearest_even Zdigits2].
  rewrite Hd.
  replace (Z.max (53 + (e + -53 + 52) - 53) (3 - 1024 - 53) - (e + -53 + 52))
    with 0 by lia.
  cbn [shr shr_record_of_loc shr_m].
  replace (e + -53 + 52 <=? 1024 - 53) with true by (symmetry; apply Z.leb_le; lia).
  f_equal. lia.
Qed.

(** Below 2^53 the heap size is the integer half of the total. *)
Lemma max_heap_half total :
  0 <= total < 2 ^ 53 → max_heap total = inr (total / 2).
Proof.
  intros [H0 H1]. destruct total as [|p|p]; [reflexivity| |lia].
  unfold max_heap. rewrite of_int_pos by assumption. cbn [pbind].
  destruct (aligned_spec p H1) as (Hd & He & Hv).
  rewrite mul_half by assumption.
  unfold PyFloat.to_int.
  replace (0 <=? snd (PyFloat.aligned p) - 1) with false
    by (symmetry; apply Z.leb_gt; lia).
  f_equal. rewrite Hv.
  replace (- (snd (PyFloat.aligned p) - 1))
    with (Z.succ (- snd (PyFloat.aligned p))) by lia.
  rewrite Z.pow_succ_r by lia.
  assert (0 < 2 ^ (- snd (PyFloat.aligned p))) by (apply Z.pow_pos_nonneg; lia).
  rewrite Z.div_mul_cancel_r by lia. reflexivity.
Qed.

End Heap.

(** ** Strings *)

Lemma append_nil_l s : "" +:+ s = s.
Proof. reflexivity. Qed.

Lemma append_cons c a b : String c a +:+ b = String c (a +:+ b).
Proof. reflexivity. Qed.

Lemma append_nil_r s : s +:+ "" = s.
Proof.
  induction s as [|c s IH]; [reflexivity|].
  rewrite append_cons, IH. reflexivity.
Qed.

Lemma append_assoc a b c : (a +:+ b) +:+ c = a +:+ (b +:+ c).
Proof.
  induction a as [|x a IH]; [reflexivity|].
  rewrite !append_cons, IH. reflexivity.
Qed.

(** ** The command that is launched *)

(** Whatever becomes of the process, the command is on record. *)
Lemma run_and_wait_launched c cmd w :
  launched (snd (run_and_wait_for_exit c cmd w)) = launched w ++ [cmd].
Proof.
  unfold run_and_wait_for_exit.
  destruct (engine w _ cmd) as [el st out|msg]; [|reflexivity].
  destruct (match alarm w with Some t => t <? clock w + el | None => false end);
    reflexivity.
Qed.

(** C5: both adapters launch the engine with [-Xmx] and [-Xms] set to the
    same number, [int(total_memory * (1/2))], which is the integer half of
    the total memory of the host for any total below 2^53 bytes. *)
Theorem heap_is_half_of_total_memory (w : World) :
  0 <= total_memory w < 2 ^ 53 →
  let h := PyStr.str_of_int (total_memory w / 2) in
  (∀ (self : BURP.t) arguments l,
     str_join_go 0 arguments = inr l →
     launched (snd (BURP._execute_with_timeout self arguments w))
     = launched w
       ++ ["java -Xmx" +:+ h +:+ " -Xms" +:+ h +:+ " -jar burp/burp.jar"
           +:+ (if BURP._verbose self then " -vvvvvvvvvvvvv" else "")
           +:+ " " +:+ PyStr.join " " l])
  ∧ (∀ (self : MorphRDB.t) arguments,
       launched (snd (MorphRDB._execute_with_timeout self arguments w))
       = launched w
         ++ ["java -Xmx" +:+ h +:+ " -Xms" +:+ h
             +:+ " -cp .:morph-rdb-dist-3.12.6.jar:dependency/* es.upm.fi.dia.oeg.morph.r2rml.rdb.engine.MorphRDBRunner /data config.properties"]).
Proof.
  intros Hm h. split.
  - intros self arguments l Hl.
    unfold BURP._execute_with_timeout, timeout, bind, gets, lift, str_join.
    cbn [total_memory set_alarm]. rewrite (max_heap_half _ Hm), Hl. cbn [pbind].
    unfold Logger_debug, modify.
    match goal with |- context [run_and_wait_for_exit ?c ?cmd ?w'] =>
      pose proof (run_and_wait_launched c cmd w') as R;
      destruct (run_and_wait_for_exit c cmd w') as [[e|b] w2] end;
    cbn [snd launched set_alarm add_log] in *; rewrite R; f_equal; f_equal.
    all: destruct (BURP._verbose self); unfold h;
      rewrite !append_assoc; reflexivity.
  - intros self arguments.
    unfold MorphRDB._execute_with_timeout, bind, gets, lift, ret.
    rewrite (max_heap_half _ Hm).
    match goal with |- context [run_and_wait_for_exit ?c ?cmd ?w'] =>
      pose proof (run_and_wait_launched c cmd w') as R;
      destruct (run_and_wait_for_exit c cmd w') as [[e|b] w2] end;
    cbn [snd] in *; rewrite R; f_equal; f_equal;
      unfold h; rewrite !append_assoc; reflexivity.
Qed.

(** On the sixteen gigabytes of the sample case both heaps are eight. *)
Lemma heap_is_half_on_case :
  0 <= total_memory Case.world < 2 ^ 53
  ∧ launched (snd (BURP._execute_with_timeout Case.burp
                     [PStr "-m"; PStr "/data/shared/mapping.ttl"] Case.world))
    = ["java -Xmx8589934592 -Xms8589934592 -jar burp/burp.jar -m /data/shared/mapping.ttl"].
Proof.
  assert (H : 0 <= total_memory Case.world < 2 ^ 53) by (simpl; lia).
  split; [exact H|].
  exact (proj1 (heap_is_half_of_total_memory Case.world H) Case.burp
           [PStr "-m"; PStr "/data/shared/mapping.ttl"]
           ["-m"; "/data/shared/mapping.ttl"] eq_refl).
Defined.

(** ** The argument list of BURP *)

(** C10: when [base_iri] is an integer, as the signature of
    [BURP.execute_mapping] allows, it is appended to the arguments as it
    is, and joining them raises a [TypeError] that [execute] does not
    catch; nothing is logged and nothing is launched. *)
Theorem burp_int_base_iri_is_type_error (self : BURP.t)
    (mapping_file serialization : string) (output_file : option string)
    (n : Z) (w : World) :
  0 <= total_memory w < 2 ^ 53 →
  let r := BURP.execute_mapping self mapping_file serialization output_file
             (Some (PInt n)) w in
  fst r = inl (TypeError ("sequence item "
                          +:+ match output_file with
                              | Some _ => "5"
                              | None => "3"
                              end
                          +:+ ": expected str instance, int found"))
  ∧ launched (snd r) = launched w
  ∧ log (snd r) = log w.
Proof.
  intros Hm.
  unfold BURP.execute_mapping, BURP.execute, try_except,
    BURP._execute_with_timeout, timeout, bind, gets, lift, str_join.
  cbn [total_memory set_alarm]. rewrite (max_heap_half _ Hm). cbn [pbind].
  destruct output_file as [o|]; cbn; auto.
Qed.

Lemma burp_int_base_iri_on_case :
  0 <= total_memory Case.world < 2 ^ 53
  ∧ fst (BURP.execute_mapping Case.burp "mapping.ttl" "nquads"
           (Some "out.nq") (Some (PInt 42)) Case.world)
    = inl (TypeError "sequence item 5: expected str instance, int found").
Proof.
  assert (H : 0 <= total_memory Case.world < 2 ^ 53) by (simpl; lia).
  split; [exact H|].
  exact (proj1 (burp_int_base_iri_is_type_error Case.burp "mapping.ttl"
                  "nquads" (Some "out.nq") 42 Case.world H)).
Defined.

(** ** Serialization formats *)

(** C1, where the code departs from it: [BURP.execute_mapping] never looks
    at its [serialization]; handed [turtle], a format it has no word for
    (its documentation names N-Quads), it raises nothing, launches the
    engine and returns its success. *)
Theorem burp_turtle_is_launched :
  let r := BURP.execute_mapping Case.burp "mapping.ttl" "turtle" None None
             Case.world in
  fst r = inr true
  ∧ launched (snd r)
    = ["java -Xmx8589934592 -Xms8589934592 -jar burp/burp.jar -m /data/shared/mapping.ttl"].
Proof. vm_compute. split; reflexivity. Qed.

(** X13: [MorphRDB.execute_mapping] refuses a serialization that is neither
    [nquads] nor [ntriples] with [NotImplementedError], whatever else it
    is given, before anything is written, logged or launched: the world
    is as it was. *)
Theorem morphrdb_unsupported_serialization (self : MorphRDB.t)
    (mapping_file output_file serialization : string)
    (rdb_username rdb_password rdb_host rdb_port rdb_name rdb_type
       : option string) (w : World) :
  serialization ≠ "nquads" → serialization ≠ "ntriples" →
  MorphRDB.execute_mapping self mapping_file output_file serialization
    rdb_username rdb_password rdb_host rdb_port rdb_name rdb_type w
  = (inl (NotImplementedError ("Unsupported serialization: "
                               +:+ DQ +:+ serialization +:+ DQ)), w).
Proof.
  intros H1 H2.
  unfold MorphRDB.execute_mapping, MorphRDB.config_of.
  apply String.eqb_neq in H1, H2. rewrite H1, H2. reflexivity.
Qed.

Lemma morphrdb_turtle_on_case :
  "turtle" ≠ "nquads" ∧ "turtle" ≠ "ntriples"
  ∧ fst (MorphRDB.execute_mapping Case.morphrdb "mapping.ttl" "out.ttl"
           "turtle" None None None None None None Case.world)
    = inl (NotImplementedError
             ("Unsupported serialization: " +:+ DQ +:+ "turtle" +:+ DQ)).
Proof.
  assert (H1 : "turtle" ≠ "nquads") by discriminate.
  assert (H2 : "turtle" ≠ "ntriples") by discriminate.
  split; [exact H1|]. split; [exact H2|].
  exact (f_equal fst
           (morphrdb_unsupported_serialization Case.morphrdb
              "mapping.ttl" "out.ttl" "turtle" None None None None
              None None Case.world H1 H2)).
Defined.

(** ** Timeouts *)

(** X1: BURP: a run that is not over when the alarm of the decorator goes off
    is cut there; [execute] logs the warning and returns [False]. *)
Lemma burp_timeout_is_recovered (self : BURP.t) (arguments : list pyval)
    (l : list string) (h : Z) (w : World) elapsed status output :
  max_heap (total_memory w) = inr h →
  str_join_go 0 arguments = inr l →
  (∀ cmd, engine w (length (launched w)) cmd = Exits elapsed status output) →
  BURP.TIMEOUT < elapsed →
  let r := BURP.execute self arguments w in
  fst r = inr false
  ∧ log (snd r)
    = log w ++ [(DEBUG, "Executing BURP with arguments " +:+ PyStr.join " " l);
                (WARNING, "Timeout (21600s) reached for BURP")]
  ∧ clock (snd r) = clock w + BURP.TIMEOUT.
Proof.
  intros Hh Hl He Ht.
  unfold BURP.execute, try_except, BURP._execute_with_timeout, timeout, bind,
    gets, lift, str_join.
  cbn [total_memory set_alarm]. rewrite Hh, Hl. cbn [pbind].
  unfold Logger_debug, modify, run_and_wait_for_exit.
  cbn [engine launched add_log set_alarm alarm clock].
  rewrite He.
  replace (clock w + BURP.TIMEOUT <? clock w + elapsed) with true
    by (symmetry; apply Z.ltb_lt; lia).
  cbn. rewrite <- app_assoc. auto.
Qed.

(** C2, where the code departs from it: [MorphRDB._execute_with_timeout]
    has no decorator, so an engine that needs 21601 seconds is waited for
    to the end; [execute] returns its success and logs no warning. *)
Theorem morphrdb_slow_run_is_not_cut :
  let r := MorphRDB.execute Case.morphrdb [] Case.slow_world in
  fst r = inr true
  ∧ clock (snd r) = 21601
  ∧ log (snd r) = [(DEBUG, "done")].
Proof. vm_compute. repeat split; reflexivity. Qed.

(** ** The configuration of Morph-RDB *)

Lemma before_set_inv v :
  (∃ msg, configparser.before_set v = inl (ValueError msg))
  ∨ configparser.before_set v = inr v.
Proof.
  unfold configparser.before_set.
  destruct (PyStr.contains_char _ _); eauto.
Qed.

Lemma set_single_inl sect o v d e :
  configparser.set sect o v [(sect, d)] = inl e → is_ValueError e.
Proof.
  unfold configparser.set. cbn [configparser.dict_get].
  rewrite String.eqb_refl.
  destruct (String.eqb v ""); cbn [pbind]; [discriminate|].
  destruct (before_set_inv v) as [[msg ->]| ->]; cbn [pbind].
  - intros [= <-]. eexists; reflexivity.
  - discriminate.
Qed.

Lemma set_single_inr sect o v d cfg :
  configparser.set sect o v [(sect, d)] = inr cfg →
  cfg = [(sect, configparser.dict_set (configparser.optionxform o) v d)].
Proof.
  unfold configparser.set. cbn [configparser.dict_get configparser.dict_set].
  rewrite String.eqb_refl.
  destruct (String.eqb v ""); cbn [pbind].
  - intros [= <-]. reflexivity.
  - destruct (before_set_inv v) as [[msg ->]| ->]; cbn [pbind].
    + discriminate.
    + intros [= <-]. reflexivity.
Qed.

Local Arguments configparser.set : simpl never.
Local Arguments os.path.join : simpl never.
Local Arguments os.path.basename : simpl never.
Local Arguments configparser.optionxform : simpl never.

Ltac norm_keys :=
  repeat match goal with
  | |- context [configparser.optionxform ?k] =>
      let k' := eval vm_compute in (configparser.optionxform k) in
      change (configparser.optionxform k) with k'
  | H : context [configparser.optionxform ?k] |- _ =>
      let k' := eval vm_compute in (configparser.optionxform k) in
      change (configparser.optionxform k) with k' in H
  end.

Ltac step_set :=
  lazymatch goal with
  | |- context [configparser.set ?s ?o ?v ?c] =>
      let E := fresh "E" in
      let e := fresh "e" in
      let cfg := fresh "cfg" in
      destruct (configparser.set s o v c) as [e|cfg] eqn:E;
      [apply set_single_inl in E
      |apply set_single_inr in E; norm_keys; cbn in E; subst cfg];
      cbn; norm_keys; cbn
  end.

Lemma config_of_inl m o s U P H Po N K e :
  MorphRDB.config_of m o s U P H Po N K = inl e →
  token s = None ∧ e = NotImplementedError ("Unsupported serialization: " +:+ DQ +:+ s +:+ DQ)
  ∨ token s ≠ None ∧ is_ValueError e.
Proof.
  unfold MorphRDB.config_of, token, configparser.setitem_option.
  destruct (String.eqb s "nquads"); [|destruct (String.eqb s "ntriples")].
  3: { cbn. intros [= <-]. left. auto. }
  all: intros He; right; split; [discriminate|]; revert He.
  all: cbn; norm_keys; cbn; step_set; [intros [= <-]; assumption|].
  all: step_set; [intros [= <-]; assumption|].
  all: step_set; [intros [= <-]; assumption|].
  all: destruct U as [u|]; [|discriminate].
  all: destruct P as [p|]; [|discriminate].
  all: destruct H as [h|]; [|discriminate].
  all: destruct Po as [po|]; [|discriminate].
  all: destruct N as [n|]; [|discriminate].
  all: destruct K as [k|]; [|discriminate].
  all: step_set; [intros [= <-]; assumption|].
  all: destruct (String.eqb k "MySQL"); [|destruct (String.eqb k "PostgreSQL")].
  all: cbn.
  all: lazymatch goal with
       | |- inl _ = inl _ → _ => intros [= <-]; eexists; reflexivity
       | |- _ => idtac
       end.
  all: repeat (step_set; [intros [= <-]; assumption|]).
  all: discriminate.
Qed.

Lemma config_of_inr m o s U P H Po N K cfg :
  MorphRDB.config_of m o s U P H Po N K = inr cfg →
  ∃ tok, token s = Some tok
         ∧ cfg = [("root", base_items m o tok ++ database_items U P H Po N K)].
Proof.
  unfold MorphRDB.config_of, token, base_items, database_items,
    configparser.setitem_option.
  destruct (String.eqb s "nquads"); [|destruct (String.eqb s "ntriples")].
  3: discriminate.
  all: cbn; norm_keys; cbn; step_set; [discriminate|].
  all: step_set; [discriminate|].
  all: step_set; [discriminate|].
  all: destruct U as [u|]; [|intros [= <-]; eexists; split; reflexivity].
  all: destruct P as [p|]; [|intros [= <-]; eexists; split; reflexivity].
  all: destruct H as [h|]; [|intros [= <-]; eexists; split; reflexivity].
  all: destruct Po as [po|]; [|intros [= <-]; eexists; split; reflexivity].
  all: destruct N as [n|]; [|intros [= <-]; eexists; split; reflexivity].
  all: destruct K as [k|]; [|intros [= <-]; eexists; split; reflexivity].
  all: step_set; [discriminate|].
  all: destruct (String.eqb k "MySQL"); [|destruct (String.eqb k "PostgreSQL")].
  all: cbn.
  all: lazymatch goal with
       | |- inl _ = inr _ → _ => discriminate
       | |- _ => idtac
       end.
  all: repeat (step_set; [discriminate|]).
  all: intros [= <-]; eexists; split; reflexivity.
Qed.

(** ** Writing the configuration *)

Lemma write_file_inr path c w w1 :
  write_file path c w = (inr tt, w1) →
  w1 = add_written path c w
  ∧ is_dir (fs w !! path) = false
  ∧ os.isdir (fs w) (os.path.dirname path) = true.
Proof.
  unfold write_file.
  destruct (fs w !! path) as [[|c0]|] eqn:E; [discriminate| |].
  all: destruct (os.isdir (fs w) (os.path.dirname path)) eqn:D; [|discriminate].
  all: intros [= <-]; auto.
Qed.

Lemma read_after_write path c w :
  read_file path (add_written path c w)
  = (inr (PyStr.universal_newlines c), add_written path c w).
Proof.
  unfold read_file. cbn [fs add_written]. rewrite lookup_insert_eq. reflexivity.
Qed.

Lemma write_after_write path c c' w w1 :
  write_file path c w = (inr tt, w1) →
  write_file path c' w1 = (inr tt, add_written path c' w1).
Proof.
  intros Hw. apply write_file_inr in Hw as (-> & Hnd & Hd).
  unfold write_file. cbn [fs add_written]. rewrite lookup_insert_eq.
  replace (os.isdir (<[path:=File c]> (fs w)) (os.path.dirname path)) with true;
    [reflexivity|].
  unfold os.isdir in *. destruct (PyStr.all_slashes _); [reflexivity|].
  cbn [orb] in *.
  destruct (decide (path = os.path.dirname path)) as [Heq|Hne].
  - rewrite <- Heq in Hd. congruence.
  - rewrite lookup_insert_ne by assumption. auto.
Qed.

Lemma morphrdb_execute_frame self args w :
  let w' := snd (MorphRDB.execute self args w) in
  fs w' = fs w ∧ written w' = written w ∧ umask w' = umask w.
Proof.
  unfold MorphRDB.execute, try_except, MorphRDB._execute_with_timeout, bind,
    gets, lift, ret.
  destruct (max_heap (total_memory w)) as [e|h]; [destruct e; cbn; auto|].
  unfold run_and_wait_for_exit.
  destruct (engine w _ _) as [el st out|msg]; [|cbn; auto].
  destruct (match alarm w with Some t => t <? clock w + el | None => false end);
    cbn; auto.
Qed.

Lemma execute_mapping_inr self m o s U P H Po N K cfg w b w' :
  MorphRDB.config_of m o s U P H Po N K = inr cfg →
  MorphRDB.execute_mapping self m o s U P H Po N K w = (inr b, w') →
  ∃ w2,
    os.makedirs (os.path.join (MorphRDB._data_path self) "morphrdb") true
      (set_umask 0 w) = (inr tt, w2)
    ∧ MorphRDB.execute self []
        (add_written (MorphRDB.config_path self) (final_artifact cfg)
           (add_written (MorphRDB.config_path self) (first_artifact cfg) w2))
      = (inr b, w').
Proof.
  intros Hc. unfold MorphRDB.execute_mapping. rewrite Hc.
  unfold bind at 1. unfold lift.
  unfold bind at 1. unfold os.umask, modify.
  unfold bind at 1.
  destruct (os.makedirs _ true (set_umask 0 w)) as [[e|[]] w2] eqn:Hmk;
    [discriminate|].
  unfold bind at 1.
  fold (MorphRDB.config_path self). fold (first_artifact cfg).
  destruct (write_file (MorphRDB.config_path self) (first_artifact cfg) w2)
    as [[e|[]] w3] eqn:Hw1; [discriminate|].
  pose proof (write_after_write _ _ (final_artifact cfg) _ _ Hw1) as Hw2.
  apply write_file_inr in Hw1 as (-> & _ & _).
  unfold bind at 1. rewrite read_after_write.
  unfold bind at 1. fold (final_artifact cfg). rewrite Hw2.
  intros He. exists w2. split; [reflexivity|exact He].
Qed.

(** ** Database credentials *)

Lemma config_of_unknown_kind m o s u p h po n k :
  s = "nquads" ∨ s = "ntriples" → k ≠ "MySQL" → k ≠ "PostgreSQL" →
  ∃ msg, MorphRDB.config_of m o s (Some u) (Some p) (Some h) (Some po)
           (Some n) (Some k) = inl (ValueError msg).
Proof.
  intros Hs Hk1 Hk2. apply String.eqb_neq in Hk1, Hk2.
  unfold MorphRDB.config_of, configparser.setitem_option.
  rewrite Hk1, Hk2.
  destruct Hs as [-> | ->]; cbn; norm_keys; cbn.
  all: step_set; [destruct E as [msg ->]; eauto|].
  all: step_set; [destruct E as [msg ->]; eauto|].
  all: step_set; [destruct E as [msg ->]; eauto|].
  all: step_set; [destruct E as [msg ->]; eauto|].
  all: eauto.
Qed.




(** ** Construction of the adapters *)

Lemma makedirs_go_mono name dirs m m' k :
  os.makedirs_go name dirs m = (inr tt, m') →
  m !! k = Some Dir → m' !! k = Some Dir.
Proof.
  revert m. induction dirs as [|a dirs IH]; intros m; cbn [os.makedirs_go].
  - intros [= <-]. auto.
  - intros Hgo Hk.
    assert (Hins : <[a:=Dir]> m !! k = Some Dir).
    { destruct (decide (a = k)) as [->|Hne];
        [apply lookup_insert_eq|rewrite lookup_insert_ne; assumption]. }
    destruct (m !! a) as [[|c]|]; [| discriminate |]; eauto.
Qed.

Lemma makedirs_go_made name dirs m m' :
  os.makedirs_go name dirs m = (inr tt, m') →
  ∀ a, a ∈ dirs → m' !! a = Some Dir.
Proof.
  revert m. induction dirs as [|d dirs IH]; intros m Hgo a Ha.
  - inversion Ha.
  - cbn [os.makedirs_go] in Hgo.
    assert (Hgo' : os.makedirs_go name dirs (<[d:=Dir]> m) = (inr tt, m')).
    { destruct (m !! d) as [[|c]|]; [assumption|discriminate|assumption]. }
    apply elem_of_cons in Ha as [->|Ha]; [|eauto].
    eapply makedirs_go_mono; [exact Hgo'|apply lookup_insert_eq].
Qed.

Lemma makedirs_go_noop name dirs m :
  (∀ a, a ∈ dirs → m !! a = Some Dir) →
  os.makedirs_go name dirs m = (inr tt, m).
Proof.
  induction dirs as [|d dirs IH]; intros Hall; [reflexivity|].
  cbn [os.makedirs_go].
  rewrite (Hall d) by (apply elem_of_cons; auto).
  rewrite insert_id by (apply Hall, elem_of_cons; auto).
  apply IH. intros a Ha. apply Hall, elem_of_cons. auto.
Qed.

Lemma set_fs_id w : set_fs (fs w) w = w.
Proof. destruct w; reflexivity. Qed.

Lemma makedirs_noop name w :
  made name w → os.makedirs name true w = (inr tt, w).
Proof.
  intros Hm. unfold os.makedirs. cbn [negb andb].
  rewrite makedirs_go_noop by exact Hm. rewrite set_fs_id. reflexivity.
Qed.

Lemma makedirs_inr name w w1 :
  os.makedirs name true w = (inr tt, w1) →
  made name w1
  ∧ (∀ n, made n w → made n w1)
  ∧ ∃ m, w1 = set_fs m w.
Proof.
  unfold os.makedirs. cbn [negb andb].
  destruct (os.makedirs_go name (os.ancestors name) (fs w)) as [r m] eqn:Hgo.
  intros [= -> <-]. split; [|split].
  - intros a Ha. cbn [fs set_fs]. eapply makedirs_go_made; eauto.
  - intros n Hn a Ha. cbn [fs set_fs].
    eapply makedirs_go_mono; [exact Hgo|]. apply Hn, Ha.
  - eauto.
Qed.

Lemma ensure_inr bs w w1 :
  ensure_host_directories bs w = (inr tt, w1) →
  Forall (λ b, made (fst b) w1) bs
  ∧ (∀ n, made n w → made n w1)
  ∧ ∃ m, w1 = set_fs m w.
Proof.
  revert w. induction bs as [|b bs IH]; intros w.
  - cbn. intros [= <-]. repeat split; auto. exists (fs w). symmetry. apply set_fs_id.
  - cbn [ensure_host_directories]. unfold bind at 1. unfold try_except.
    destruct (os.makedirs (fst b) true w) as [[e|[]] w2] eqn:Hmk;
      [cbn; discriminate|].
    intros Hrest. apply makedirs_inr in Hmk as (Hb & Hmono & m & ->).
    apply IH in Hrest as (Hall & Hmono' & m' & ->).
    split; [|split].
    + constructor; [|assumption]. apply Hmono', Hb.
    + intros n Hn. apply Hmono', Hmono, Hn.
    + exists m'. destruct w; reflexivity.
Qed.

Lemma ensure_noop bs w :
  Forall (λ b, made (fst b) w) bs →
  ensure_host_directories bs w = (inr tt, w).
Proof.
  induction 1 as [|b bs Hb _ IH]; [reflexivity|].
  cbn [ensure_host_directories]. unfold bind at 1. unfold try_except.
  rewrite makedirs_noop by assumption. exact IH.
Qed.

Lemma parse_volumes_nodup vs : ∀ seen bs,
  parse_volumes seen vs = inr bs →
  NoDup (map snd bs) ∧ ∀ t, t ∈ seen → t ∉ map snd bs.
Proof.
  induction vs as [|v vs IH]; intros seen bs; cbn [parse_volumes].
  - intros [= <-]. split; [constructor|]. intros t _ Hin. inversion Hin.
  - destruct (parse_volume v) as [e|b]; [discriminate|]. cbn [pbind].
    destruct (existsb (String.eqb (snd b)) seen) eqn:Hex; [discriminate|].
    destruct (parse_volumes (snd b :: seen) vs) as [e|bs'] eqn:Hp;
      [discriminate|]. cbn [pbind]. intros [= <-].
    apply IH in Hp as [Hnd Hseen]. cbn [map]. split.
    + constructor; [|assumption]. apply Hseen, elem_of_cons. auto.
    + intros t Ht Hin. apply elem_of_cons in Hin as [->|Hin].
      * assert (existsb (String.eqb (snd b)) seen = true); [|congruence].
        apply existsb_exists. exists (snd b). split;
          [apply list_elem_of_In, Ht|apply String.eqb_refl].
      * eapply Hseen; [|exact Hin]. apply elem_of_cons. auto.
Qed.

Lemma container_init_inr image name logger ef vs w c w1 :
  Container__init__ image name logger ef vs w = (inr c, w1) →
  NoDup (map snd (volumes c))
  ∧ (∀ n, made n w → made n w1)
  ∧ (∃ m, w1 = set_fs m w)
  ∧ ∀ w', (∀ n, made n w1 → made n w') →
          Container__init__ image name logger ef vs w' = (inr c, w').
Proof.
  unfold Container__init__. unfold bind at 1. unfold lift.
  destruct (parse_volumes [] vs) as [e|bs] eqn:Hp; [discriminate|].
  unfold bind at 1.
  destruct (ensure_host_directories bs w) as [[e|[]] w2] eqn:He;
    [discriminate|].
  unfold ret. intros [= <- <-].
  apply parse_volumes_nodup in Hp as [Hnd _].
  apply ensure_inr in He as (Hall & Hmono & Hm).
  repeat split; try assumption.
  intros w' Hw'. unfold bind at 1. unfold bind at 1.
  rewrite ensure_noop; [reflexivity|].
  eapply Forall_impl; [exact Hall|]. intros b Hb. apply Hw', Hb.
Qed.

Lemma set_umask_fs m u w : set_umask u (set_fs m (set_umask u w)) = set_fs m (set_umask u w).
Proof. reflexivity. Qed.

(** ** The same request twice *)

Lemma execute_mapping_result self m o s U P H Po N K w b w' :
  MorphRDB.execute_mapping self m o s U P H Po N K w = (inr b, w') →
  ∃ cfg,
    MorphRDB.config_of m o s U P H Po N K = inr cfg
    ∧ fs w' !! MorphRDB.config_path self = Some (File (final_artifact cfg))
    ∧ written w'
      = written w ++ [(MorphRDB.config_path self, first_artifact cfg);
                      (MorphRDB.config_path self, final_artifact cfg)].
Proof.
  intros Hrun.
  destruct (MorphRDB.config_of m o s U P H Po N K) as [e|cfg] eqn:Hc.
  { unfold MorphRDB.execute_mapping in Hrun. rewrite Hc in Hrun. discriminate. }
  exists cfg. split; [reflexivity|].
  destruct (execute_mapping_inr _ _ _ _ _ _ _ _ _ _ _ _ _ _ Hc Hrun)
    as (w2 & Hmk & Hex).
  apply makedirs_inr in Hmk as (_ & _ & mm & ->).
  match type of Hex with MorphRDB.execute ?s ?a ?w4 = _ =>
    pose proof (morphrdb_execute_frame s a w4) as Hfr end.
  rewrite Hex in Hfr. cbn [snd] in Hfr. destruct Hfr as (Hfs & Hwr & _).
  rewrite Hfs, Hwr. cbn [fs written add_written set_fs set_umask].
  rewrite lookup_insert_eq, <- app_assoc. auto.
Qed.

Lemma burp_launches (self : BURP.t) (arguments : list pyval) (tm : Z) :
  ∃ cmds, ∀ w, total_memory w = tm →
    launched (snd (BURP.execute self arguments w)) = launched w ++ cmds.
Proof.
  unfold BURP.execute, try_except, BURP._execute_with_timeout, timeout, bind,
    gets, lift, str_join.
  destruct (max_heap tm) as [e|h] eqn:Hh.
  { exists []. intros w <-. cbn [total_memory set_alarm]. rewrite Hh.
    destruct e; cbn; rewrite app_nil_r; reflexivity. }
  destruct (str_join_go 0 arguments) as [e|l] eqn:Hl.
  { exists []. intros w <-. cbn [total_memory set_alarm]. rewrite Hh.
    cbn [pbind]. destruct e; cbn; rewrite app_nil_r; reflexivity. }
  eexists [_]. intros w <-. cbn [total_memory set_alarm]. rewrite Hh.
  cbn [pbind]. unfold Logger_debug, modify.
  match goal with |- context [run_and_wait_for_exit ?c ?cmd ?w'] =>
    pose proof (run_and_wait_launched c cmd w') as R;
    destruct (run_and_wait_for_exit c cmd w') as [[e|b] w2] end.
  - cbn [snd] in R. destruct e; cbn; exact R.
  - cbn. exact R.
Qed.

(** C7: what an adapter prepares depends on the request alone.  BURP
    hands over the same commands in any two worlds with the same total
    memory; Morph-RDB writes the same two contents and leaves the same
    [config.properties], whatever the file held before: a second run
    replaces the content, it adds nothing to it. *)
Theorem prepare_is_deterministic :
  (∀ (self : BURP.t) mapping_file serialization output_file base_iri w1 w2,
     total_memory w1 = total_memory w2 →
     drop (length (launched w1))
       (launched (snd (BURP.execute_mapping self mapping_file serialization
                         output_file base_iri w1)))
     = drop (length (launched w2))
         (launched (snd (BURP.execute_mapping self mapping_file serialization
                           output_file base_iri w2))))
  ∧ (∀ (self : MorphRDB.t) mapping_file output_file serialization
       rdb_username rdb_password rdb_host rdb_port rdb_name rdb_type
       w1 b1 w1' w2 b2 w2',
       MorphRDB.execute_mapping self mapping_file output_file serialization
         rdb_username rdb_password rdb_host rdb_port rdb_name rdb_type w1
       = (inr b1, w1') →
       MorphRDB.execute_mapping self mapping_file output_file serialization
         rdb_username rdb_password rdb_host rdb_port rdb_name rdb_type w2
       = (inr b2, w2') →
       (∃ content, fs w1' !! MorphRDB.config_path self = Some (File content)
                   ∧ fs w2' !! MorphRDB.config_path self = Some (File content))
       ∧ drop (length (written w1)) (written w1')
         = drop (length (written w2)) (written w2')).
Proof.
  split.
  - intros self m s o bi w1 w2 Hm. unfold BURP.execute_mapping.
    destruct (burp_launches self (BURP.arguments_of m o bi) (total_memory w1))
      as [cmds Hc].
    rewrite (Hc w1 eq_refl), (Hc w2 (eq_sym Hm)), !drop_app_length.
    reflexivity.
  - intros self m o s U P H Po N K w1 b1 w1' w2 b2 w2' H1 H2.
    apply execute_mapping_result in H1 as (cfg1 & Hc1 & Hf1 & Hw1).
    apply execute_mapping_result in H2 as (cfg2 & Hc2 & Hf2 & Hw2).
    assert (cfg2 = cfg1) as -> by congruence.
    split; [eauto|]. rewrite Hw1, Hw2, !drop_app_length. reflexivity.
Qed.

Lemma rerun_on_case :
  ∃ b1 w1 b2 w2 content,
    MorphRDB.execute_mapping Case.morphrdb "mapping.ttl" "out.nq" "nquads"
      None None None None None None Case.world = (inr b1, w1)
    ∧ MorphRDB.execute_mapping Case.morphrdb "mapping.ttl" "out.nq" "nquads"
        None None None None None None w1 = (inr b2, w2)
    ∧ fs w1 !! MorphRDB.config_path Case.morphrdb = Some (File content)
    ∧ fs w2 !! MorphRDB.config_path Case.morphrdb = Some (File content).
Proof.
  destruct (MorphRDB.execute_mapping Case.morphrdb "mapping.ttl" "out.nq"
              "nquads" None None None None None None Case.world)
    as [r1 w1] eqn:E1.
  assert (Hr1 : r1 = inr true).
  { apply (f_equal fst) in E1. cbn [fst] in E1. rewrite <- E1.
    vm_compute. reflexivity. }
  subst r1.
  destruct (MorphRDB.execute_mapping Case.morphrdb "mapping.ttl" "out.nq"
              "nquads" None None None None None None w1)
    as [r2 w2] eqn:E2.
  assert (Hr2 : r2 = inr true).
  { apply (f_equal fst) in E2. cbn [fst] in E2. rewrite <- E2.
    apply (f_equal snd) in E1. cbn [snd] in E1. rewrite <- E1.
    vm_compute. reflexivity. }
  subst r2.
  destruct (proj2 prepare_is_deterministic Case.morphrdb "mapping.ttl" "out.nq"
              "nquads" None None None None None None
              Case.world true w1 w1 true w2 E1 E2) as [(content & Ha & Hb) _].
  exists true, w1, true, w2, content. auto.
Defined.

(** ** The header line *)

Lemma prefix_true p s :
  String.prefix p s = true → s = p +:+ PyStr.drop (String.length p) s.
Proof.
  revert s. induction p as [|a p IH]; intros s.
  - intros _. destruct s; reflexivity.
  - destruct s as [|b s]; cbn [String.prefix]; [discriminate|].
    destruct (ascii_dec a b) as [->|]; [|discriminate].
    intros Hp. rewrite append_cons. cbn [String.length PyStr.drop].
    f_equal. apply IH, Hp.
Qed.

Lemma replace_cons old new c s :
  PyStr.replace old new (String c s)
  = if String.prefix old (String c s)
    then new +:+ PyStr.replace old new
                   (PyStr.drop (Nat.pred (String.length old)) s)
    else String c (PyStr.replace old new s).
Proof. apply PyStr.replace_equation_2. Qed.

Lemma replace_nil old new : PyStr.replace old new "" = "".
Proof. apply PyStr.replace_equation_1. Qed.

Lemma no_header_weaken b s : no_header true s = true → no_header b s = true.
Proof.
  destruct b; [auto|]. destruct s as [|c s]; [reflexivity|]. cbn [no_header].
  intros H. apply andb_true_iff in H as [_ H]. exact H.
Qed.

Lemma root_app rest :
  ROOT +:+ rest
  = String "[" (String "r" (String "o" (String "o" (String "t"
      (String "]" (String "010" rest)))))).
Proof. reflexivity. Qed.

Lemma no_header_root b rest :
  no_header b (ROOT +:+ rest) = true → b = false ∧ no_header true rest = true.
Proof. rewrite root_app. destruct b; cbn; [discriminate|auto]. Qed.

Lemma prefix_root c s :
  String.prefix ROOT (String c s) = true →
  String c s = ROOT +:+ PyStr.drop 6 s.
Proof. intros Hp. apply prefix_true in Hp. exact Hp. Qed.

Lemma strip_keeps_no_header n : ∀ s b,
  (String.length s <= n)%nat →
  no_header b s = true → no_header b (PyStr.replace ROOT "" s) = true.
Proof.
  induction n as [|n IH]; intros s b Hlen Hs.
  - destruct s; [|cbn in Hlen; lia]. rewrite replace_nil. reflexivity.
  - destruct s as [|c s]; [rewrite replace_nil; reflexivity|].
    rewrite replace_cons.
    destruct (String.prefix ROOT (String c s)) eqn:Hp.
    + apply prefix_root in Hp.
      change (Nat.pred (String.length ROOT)) with 6%nat.
      rewrite append_nil_l.
      rewrite Hp in Hs. apply no_header_root in Hs as [-> Hrest].
      apply no_header_weaken, IH; [|exact Hrest].
      pose proof (PyStr.length_drop 6 s). cbn [String.length] in Hlen. lia.
    + cbn [no_header] in *. apply andb_true_iff in Hs as [Hb Hrest].
      rewrite Hb. cbn [andb]. apply IH; [cbn [String.length] in Hlen; lia|exact Hrest].
Qed.

Lemma prefix_app p s : String.prefix p (p +:+ s) = true.
Proof.
  induction p as [|a p IH]; [destruct s; reflexivity|].
  rewrite append_cons. cbn [String.prefix].
  destruct (ascii_dec a a); [exact IH|congruence].
Qed.

Lemma strip_root rest :
  PyStr.replace ROOT "" (ROOT +:+ rest) = PyStr.replace ROOT "" rest.
Proof.
  pose proof (prefix_app ROOT rest) as Hp. rewrite root_app in *.
  rewrite replace_cons, Hp. reflexivity.
Qed.

(** A value is written with a tab after each of its line feeds. *)
Lemma no_header_value v t :
  no_header false (PyStr.replace LF (LF +:+ configparser.TAB) v +:+ t)
  = no_header false t.
Proof.
  induction v as [|c v IH]; [rewrite replace_nil; reflexivity|].
  rewrite replace_cons.
  destruct (String.prefix LF (String c v)) eqn:Hp.
  - change (PyStr.drop (Nat.pred (String.length LF)) v) with v.
    rewrite append_assoc.
    change ((LF +:+ configparser.TAB) +:+ ?x)
      with (String "010" (String "009" x)).
    cbn [no_header]. exact IH.
  - rewrite append_cons. cbn [no_header andb negb].
    replace (Ascii.eqb c "010") with false; [exact IH|].
    symmetry. apply Ascii.eqb_neq. intros ->.
    unfold LF in Hp. cbn [String.prefix] in Hp.
    destruct (ascii_dec "010" "010"); [|congruence].
    destruct v; discriminate.
Qed.

Lemma no_header_key k x : ∀ b,
  no_header b k = true →
  no_header b (k +:+ String "=" x) = no_header false x.
Proof.
  induction k as [|c k IH]; intros b Hk.
  - rewrite append_nil_l. destruct b; reflexivity.
  - rewrite append_cons. cbn [no_header] in *.
    apply andb_true_iff in Hk as [-> Hk]. cbn [andb]. apply IH, Hk.
Qed.

Lemma no_header_item kv t :
  no_header true (fst kv) = true →
  no_header true (configparser.write_item "=" kv +:+ t) = no_header true t.
Proof.
  intros Hk. unfold configparser.write_item. rewrite !append_assoc.
  change ("=" +:+ ?x) with (String "=" x).
  rewrite no_header_key by exact Hk.
  rewrite no_header_value. reflexivity.
Qed.

Lemma no_header_items items t :
  Forall (λ kv, no_header true (fst kv) = true) items →
  no_header true (configparser.concat_map (configparser.write_item "=") items
                  +:+ t)
  = no_header true t.
Proof.
  induction 1 as [|kv items Hk _ IH]; [reflexivity|].
  cbn [configparser.concat_map]. rewrite append_assoc.
  rewrite no_header_item by exact Hk. exact IH.
Qed.

Lemma first_artifact_root items :
  first_artifact [("root", items)]
  = ROOT +:+ configparser.concat_map (configparser.write_item "=") items
    +:+ LF.
Proof.
  unfold first_artifact, configparser.write, configparser.write_section.
  cbn [configparser.concat_map fst snd]. rewrite append_nil_r.
  unfold ROOT. rewrite !append_assoc. reflexivity.
Qed.

(** *** Carriage returns *)

Lemma no_cr_app a b : no_cr (a +:+ b) = no_cr a && no_cr b.
Proof.
  induction a as [|c a IH]; [reflexivity|].
  rewrite append_cons. cbn [no_cr]. rewrite IH, andb_assoc. reflexivity.
Qed.

Lemma no_cr_drop n : ∀ s, no_cr s = true → no_cr (PyStr.drop n s) = true.
Proof.
  induction n as [|n IH]; intros [|c s] Hs; cbn [PyStr.drop]; auto.
  cbn [no_cr] in Hs. apply andb_true_iff in Hs as [_ Hs]. auto.
Qed.

Lemma no_cr_replace old new n : ∀ s,
  (String.length s <= n)%nat →
  no_cr new = true → no_cr s = true → no_cr (PyStr.replace old new s) = true.
Proof.
  induction n as [|n IH]; intros s Hlen Hnew Hs.
  - destruct s; [|cbn in Hlen; lia]. rewrite replace_nil. reflexivity.
  - destruct s as [|c s]; [rewrite replace_nil; reflexivity|].
    rewrite replace_cons. cbn [no_cr String.length] in *.
    apply andb_true_iff in Hs as [Hc Hs].
    destruct (String.prefix old (String c s)).
    + rewrite no_cr_app, Hnew. cbn [andb].
      apply IH; [|assumption|apply no_cr_drop, Hs].
      pose proof (PyStr.length_drop (Nat.pred (String.length old)) s). lia.
    + cbn [no_cr]. rewrite Hc. cbn [andb]. apply IH; [lia|assumption..].
Qed.

Lemma universal_newlines_id s :
  no_cr s = true → PyStr.universal_newlines s = s.
Proof.
  induction s as [|c s IH]; [reflexivity|]. cbn [no_cr PyStr.universal_newlines].
  intros H. apply andb_true_iff in H as [Hc Hs]. apply negb_true_iff in Hc.
  rewrite Hc, IH by assumption. reflexivity.
Qed.

Lemma no_cr_rsplit s : ∀ hd tl,
  no_cr hd = true → no_cr tl = true → no_cr s = true →
  no_cr (snd (PyStr.rsplit_slash_go hd tl s)) = true.
Proof.
  induction s as [|c s IH]; intros hd tl Hh Ht Hs; [exact Ht|].
  cbn [PyStr.rsplit_slash_go no_cr] in *.
  apply andb_true_iff in Hs as [Hc Hs].
  destruct (Ascii.eqb c "/").
  - apply IH; [|reflexivity|assumption].
    rewrite !no_cr_app, Hh, Ht. reflexivity.
  - apply IH; [assumption| |assumption].
    rewrite no_cr_app, Ht. cbn [no_cr]. rewrite Hc. reflexivity.
Qed.

Lemma no_cr_basename p : no_cr p = true → no_cr (os.path.basename p) = true.
Proof. intros Hp. apply no_cr_rsplit; auto. Qed.

Lemma no_cr_join a b :
  no_cr a = true → no_cr b = true → no_cr (os.path.join a b) = true.
Proof.
  intros Ha Hb. unfold os.path.join.
  destruct (PyStr.startswith b "/"); [assumption|].
  destruct (String.eqb a "" || PyStr.endswith_char a "/");
    rewrite !no_cr_app, Ha, Hb; reflexivity.
Qed.

Lemma no_cr_items items :
  Forall (λ kv, no_cr (fst kv) = true ∧ no_cr (snd kv) = true) items →
  no_cr (configparser.concat_map (configparser.write_item "=") items) = true.
Proof.
  induction 1 as [|kv items [Hk Hv] _ IH]; [reflexivity|].
  cbn [configparser.concat_map]. rewrite no_cr_app, IH, andb_true_r.
  unfold configparser.write_item. rewrite !no_cr_app, Hk.
  rewrite (no_cr_replace _ _ (String.length (snd kv))) by auto.
  reflexivity.
Qed.

Lemma token_no_cr s tok : token s = Some tok → no_cr tok = true.
Proof.
  unfold token. destruct (String.eqb s "nquads");
    [|destruct (String.eqb s "ntriples")]; intros [= <-]; reflexivity.
Qed.

Lemma items_keys m o tok U P H Po N K :
  Forall (λ kv, no_header true (fst kv) = true)
    (base_items m o tok ++ database_items U P H Po N K).
Proof.
  apply Forall_app. split; [repeat constructor|].
  unfold database_items.
  destruct U; [|constructor]. destruct P; [|constructor].
  destruct H; [|constructor]. destruct Po; [|constructor].
  destruct N; [|constructor]. destruct K as [k|]; [|constructor].
  destruct (String.eqb k "MySQL"); [repeat constructor|].
  destruct (String.eqb k "PostgreSQL"); repeat constructor.
Qed.

Lemma items_no_cr m o tok U P H Po N K :
  no_cr m = true → no_cr o = true → no_cr tok = true →
  no_cr_opt U = true → no_cr_opt P = true → no_cr_opt H = true →
  no_cr_opt Po = true → no_cr_opt N = true →
  Forall (λ kv, no_cr (fst kv) = true ∧ no_cr (snd kv) = true)
    (base_items m o tok ++ database_items U P H Po N K).
Proof.
  intros Hm Ho Ht HU HP HH HPo HN.
  apply Forall_app. split.
  - unfold base_items.
    repeat constructor; cbn [fst snd]; try assumption;
      apply no_cr_join; try reflexivity; apply no_cr_basename; assumption.
  - unfold database_items.
    destruct U as [u|]; [|constructor]. destruct P as [p|]; [|constructor].
    destruct H as [h|]; [|constructor]. destruct Po as [po|]; [|constructor].
    destruct N as [n|]; [|constructor]. destruct K as [k|]; [|constructor].
    cbn [no_cr_opt] in *.
    destruct (String.eqb k "MySQL"); [|destruct (String.eqb k "PostgreSQL")].
    3: constructor.
    all: repeat constructor; cbn [fst snd]; try assumption.
    all: rewrite !no_cr_app, HH, HPo, HN; reflexivity.
Qed.

(** C4, as the code has it: when no parameter holds a carriage return, no
    line of the [config.properties] that [MorphRDB.execute_mapping] leaves
    begins with an opening bracket: the [[root]] header that was written
    first is gone and nothing else has taken its place. *)
Theorem config_file_has_no_header_line (self : MorphRDB.t)
    (mapping_file output_file serialization : string)
    (rdb_username rdb_password rdb_host rdb_port rdb_name rdb_type
       : option string) (w : World) (b : bool) (w' : World) :
  no_cr mapping_file = true → no_cr output_file = true →
  no_cr_opt rdb_username = true → no_cr_opt rdb_password = true →
  no_cr_opt rdb_host = true → no_cr_opt rdb_port = true →
  no_cr_opt rdb_name = true →
  MorphRDB.execute_mapping self mapping_file output_file serialization
    rdb_username rdb_password rdb_host rdb_port rdb_name rdb_type w
  = (inr b, w') →
  ∃ content,
    fs w' !! MorphRDB.config_path self = Some (File content)
    ∧ no_header true content = true.
Proof.
  intros Hm Ho HU HP HH HPo HN Hrun.
  apply execute_mapping_result in Hrun as (cfg & Hc & Hf & _).
  exists (final_artifact cfg). split; [exact Hf|].
  apply config_of_inr in Hc as (tok & Ht & ->).
  unfold final_artifact. rewrite first_artifact_root.
  rewrite universal_newlines_id.
  - fold ROOT. rewrite strip_root.
    eapply strip_keeps_no_header; [reflexivity|].
    rewrite no_header_items by apply items_keys. reflexivity.
  - rewrite !no_cr_app. rewrite no_cr_items; [reflexivity|].
    apply items_no_cr; try assumption. eapply token_no_cr, Ht.
Qed.

Lemma config_file_on_case :
  ∃ content,
    fs (snd (MorphRDB.execute_mapping Case.morphrdb "mapping.ttl" "out.nq"
               "ntriples" (Some "root") (Some "secret") (Some "db.example")
               (Some "5432") (Some "bench") (Some "PostgreSQL") Case.world))
      !! MorphRDB.config_path Case.morphrdb = Some (File content)
    ∧ no_header true content = true.
Proof.
  destruct (MorphRDB.execute_mapping Case.morphrdb "mapping.ttl" "out.nq"
              "ntriples" (Some "root") (Some "secret") (Some "db.example")
              (Some "5432") (Some "bench") (Some "PostgreSQL") Case.world)
    as [r w1] eqn:E.
  assert (Hr : r = inr true).
  { apply (f_equal fst) in E. cbn [fst] in E. rewrite <- E.
    vm_compute. reflexivity. }
  subst r. cbn [snd].
  exact (config_file_has_no_header_line Case.morphrdb "mapping.ttl" "out.nq"
           "ntriples" (Some "root") (Some "secret") (Some "db.example")
           (Some "5432") (Some "bench") (Some "PostgreSQL") Case.world true w1
           eq_refl eq_refl eq_refl eq_refl eq_refl eq_refl eq_refl E).
Defined.

(** A carriage return in a file name is written as it is and read back as
    a line feed, so that what follows it begins a line of its own: here
    the line [[x]]. *)
Lemma carriage_return_makes_a_header_line :
  ∃ content,
    fs (snd (MorphRDB.execute_mapping Case.morphrdb
               ("mapping" +:+ CR +:+ "[x]") "out.nq" "nquads"
               None None None None None None Case.world))
      !! MorphRDB.config_path Case.morphrdb = Some (File content)
    ∧ no_header true content = false.
Proof. eexists. split; vm_compute; reflexivity. Qed.

(** ** The output language *)

Lemma prefix_root_false c s : c ≠ "["%char → String.prefix ROOT (String c s) = false.
Proof.
  intros Hc. unfold ROOT. cbn [String.append String.prefix].
  change ("[root]" +:+ LF) with (String "[" ("root]" +:+ LF)).
  cbn [String.prefix]. destruct (ascii_dec "[" c); [congruence|reflexivity].
Qed.

Lemma replace_skip k r :
  no_bracket k = true →
  PyStr.replace ROOT "" (k +:+ r) = k +:+ PyStr.replace ROOT "" r.
Proof.
  induction k as [|c k IH]; [reflexivity|]. cbn [no_bracket].
  intros H. apply andb_true_iff in H as [Hc Hk]. apply negb_true_iff in Hc.
  rewrite !append_cons, replace_cons, prefix_root_false, IH; auto.
  apply Ascii.eqb_neq, Hc.
Qed.

(** The text after [p] begins with [ou]: no header that starts in [p] runs
    over into it. *)
Lemma root_within p k r :
  String.prefix ROOT (p +:+ String "o" (String "u" k) +:+ r) = true →
  p ≠ "" →
  ∃ p', p = ROOT +:+ p'.
Proof.
  intros Hp Hne. destruct p as [|c0 p]; [congruence|].
  rewrite append_cons in Hp. apply prefix_root in Hp.
  rewrite root_app in Hp.
  injection Hp as -> Hp.
  destruct p as [|c1 p]; [discriminate|]. rewrite append_cons in Hp.
  injection Hp as -> Hp.
  destruct p as [|c2 p]; [discriminate|]. rewrite append_cons in Hp.
  injection Hp as -> Hp.
  destruct p as [|c3 p]; [discriminate|]. rewrite append_cons in Hp.
  injection Hp as -> Hp.
  destruct p as [|c4 p]; [discriminate|]. rewrite append_cons in Hp.
  injection Hp as -> Hp.
  destruct p as [|c5 p]; [discriminate|]. rewrite append_cons in Hp.
  injection Hp as -> Hp.
  destruct p as [|c6 p]; [discriminate|]. rewrite append_cons in Hp.
  injection Hp as ->.
  exists p. reflexivity.
Qed.

Lemma strip_keeps_line k r n : ∀ p,
  (String.length p <= n)%nat →
  no_bracket k = true →
  ∃ q, PyStr.replace ROOT "" (p +:+ String "o" (String "u" k) +:+ r)
       = q +:+ String "o" (String "u" k) +:+ PyStr.replace ROOT "" r.
Proof.
  induction n as [|n IH]; intros p Hlen Hk.
  - destruct p; [|cbn in Hlen; lia]. exists "".
    rewrite !append_nil_l. apply (replace_skip (String "o" (String "u" k))).
    exact Hk.
  - destruct p as [|c p].
    { exists "". rewrite !append_nil_l.
      apply (replace_skip (String "o" (String "u" k))). exact Hk. }
    destruct (String.prefix ROOT (String c p +:+ String "o" (String "u" k) +:+ r))
      eqn:Hp.
    + destruct (root_within _ _ _ Hp) as [p' Hp']; [discriminate|].
      rewrite Hp', append_assoc, strip_root.
      apply IH; [|exact Hk].
      apply (f_equal String.length) in Hp'. rewrite root_app in Hp'.
      cbn [String.length] in Hp', Hlen. lia.
    + rewrite (append_cons c p) in *. rewrite replace_cons, Hp.
      destruct (IH p ltac:(cbn [String.length] in Hlen; lia) Hk) as [q Hq].
      exists (String c q). rewrite Hq. reflexivity.
Qed.

Lemma universal_newlines_skip k r :
  no_cr k = true →
  PyStr.universal_newlines (k +:+ r) = k +:+ PyStr.universal_newlines r.
Proof.
  induction k as [|c k IH]; [reflexivity|]. cbn [no_cr].
  intros H. apply andb_true_iff in H as [Hc Hk]. apply negb_true_iff in Hc.
  rewrite !append_cons. cbn [PyStr.universal_newlines]. rewrite Hc, IH; auto.
Qed.

Lemma universal_newlines_prefix n : ∀ p t,
  (String.length p <= n)%nat → (∀ t', t ≠ String "010" t') →
  ∃ q, PyStr.universal_newlines (p +:+ t) = q +:+ PyStr.universal_newlines t.
Proof.
  induction n as [|n IH]; intros p t Hlen Ht.
  - destruct p; [|cbn in Hlen; lia]. exists "". reflexivity.
  - destruct p as [|a p]; [exists ""; reflexivity|].
    rewrite append_cons. cbn [String.length] in Hlen.
    cbn [PyStr.universal_newlines]. destruct (Ascii.eqb a "013").
    + destruct p as [|b p].
      * rewrite append_nil_l. exists (String "010" "").
        destruct t as [|c t]; [reflexivity|].
        destruct c as [[] [] [] [] [] [] [] []]; try reflexivity.
        destruct (Ht t eq_refl).
      * rewrite append_cons.
        destruct (Ascii.eqb b "010") eqn:Hb.
        -- apply Ascii.eqb_eq in Hb as ->.
           destruct (IH p t ltac:(cbn [String.length] in Hlen; lia) Ht)
             as [q Hq].
           exists (String "010" q). rewrite Hq. reflexivity.
        -- destruct (IH (String b p) t ltac:(lia) Ht) as [q Hq].
           rewrite append_cons in Hq.
           exists (String "010" q). rewrite append_cons, <- Hq.
           apply Ascii.eqb_neq in Hb.
           destruct b as [[] [] [] [] [] [] [] []]; try reflexivity. congruence.
    + destruct (IH p t ltac:(lia) Ht) as [q Hq].
      exists (String a q). rewrite Hq. reflexivity.
Qed.

Lemma token_cases s tok :
  token s = Some tok →
  s = "nquads" ∧ tok = "N-QUADS" ∨ s = "ntriples" ∧ tok = "N-TRIPLE".
Proof.
  unfold token. destruct (String.eqb s "nquads") eqn:E1.
  - apply String.eqb_eq in E1. intros [= <-]. auto.
  - destruct (String.eqb s "ntriples") eqn:E2; [|discriminate].
    apply String.eqb_eq in E2. intros [= <-]. auto.
Qed.

Lemma final_artifact_keeps_language m o s tok db :
  token s = Some tok →
  ∃ pre post,
    final_artifact [("root", base_items m o tok ++ db)]
    = pre +:+ "output.rdflanguage=" +:+ tok +:+ LF +:+ post.
Proof.
  intros Ht. unfold final_artifact. rewrite first_artifact_root.
  unfold base_items. cbn [app configparser.concat_map].
  set (A1 := configparser.write_item "=" ("mappingdocument.file.path", _)).
  set (A2 := configparser.write_item "=" ("output.file.path", _)).
  set (B := configparser.concat_map _ db).
  assert (Hline : configparser.write_item "=" ("output.rdflanguage", tok)
                  = String "o" (String "u" ("tput.rdflanguage=" +:+ tok +:+ LF))
                  ∧ no_bracket ("tput.rdflanguage=" +:+ tok +:+ LF) = true
                  ∧ no_cr ("tput.rdflanguage=" +:+ tok +:+ LF) = true).
  { apply token_cases in Ht as [[_ ->]|[_ ->]];
      (split; [vm_compute; reflexivity|split; reflexivity]). }
  destruct Hline as (-> & Hnb & Hnc).
  set (K := "tput.rdflanguage=" +:+ tok +:+ LF) in *.
  rewrite !append_assoc.
  rewrite (universal_newlines_skip ROOT) by reflexivity.
  rewrite <- (append_assoc A1 A2).
  destruct (universal_newlines_prefix (String.length (A1 +:+ A2)) (A1 +:+ A2)
              (String "o" (String "u" K) +:+ B +:+ LF) (le_n _))
    as [q1 Hq1]; [discriminate|].
  rewrite Hq1.
  rewrite (universal_newlines_skip (String "o" (String "u" K)))
    by (cbn [no_cr]; exact Hnc).
  rewrite strip_root.
  destruct (strip_keeps_line K (PyStr.universal_newlines (B +:+ LF))
              (String.length q1) q1 (le_n _) Hnb) as [q2 Hq2].
  rewrite Hq2. exists q2.
  exists (PyStr.replace ROOT "" (PyStr.universal_newlines (B +:+ LF))).
  subst K. rewrite !append_cons, !append_assoc. reflexivity.
Qed.

(** C8: [nquads] becomes [N-QUADS] and [ntriples] becomes [N-TRIPLE]: that
    is the value of [output.rdflanguage] in the configuration, and the
    file that is left holds [output.rdflanguage=] followed by it and a
    line feed. *)
Theorem serialization_is_translated (self : MorphRDB.t)
    (mapping_file output_file serialization : string)
    (rdb_username rdb_password rdb_host rdb_port rdb_name rdb_type
       : option string) (w : World) (b : bool) (w' : World) :
  MorphRDB.execute_mapping self mapping_file output_file serialization
    rdb_username rdb_password rdb_host rdb_port rdb_name rdb_type w
  = (inr b, w') →
  ∃ tok,
    (serialization = "nquads" ∧ tok = "N-QUADS"
     ∨ serialization = "ntriples" ∧ tok = "N-TRIPLE")
    ∧ (∃ items,
         MorphRDB.config_of mapping_file output_file serialization
           rdb_username rdb_password rdb_host rdb_port rdb_name rdb_type
         = inr [("root", items)]
         ∧ configparser.dict_get "output.rdflanguage" items = Some tok)
    ∧ ∃ pre post,
        fs w' !! MorphRDB.config_path self
        = Some (File (pre +:+ "output.rdflanguage=" +:+ tok +:+ LF +:+ post)).
Proof.
  intros Hrun.
  apply execute_mapping_result in Hrun as (cfg & Hc & Hf & _).
  pose proof Hc as Hc'. apply config_of_inr in Hc' as (tok & Ht & ->).
  exists tok. split; [apply token_cases, Ht|]. split.
  - eexists. split; [exact Hc|]. reflexivity.
  - destruct (final_artifact_keeps_language mapping_file output_file
                serialization tok
                (database_items rdb_username rdb_password rdb_host rdb_port
                   rdb_name rdb_type) Ht) as (pre & post & Hfin).
    exists pre, post. rewrite Hf, Hfin. reflexivity.
Qed.

Lemma nquads_on_case :
  ∃ tok,
    ("nquads" = "nquads" ∧ tok = "N-QUADS"
     ∨ "nquads" = "ntriples" ∧ tok = "N-TRIPLE")
    ∧ ∃ pre post,
        fs (snd (MorphRDB.execute_mapping Case.morphrdb "mapping.ttl" "out.nq"
                   "nquads" None None None None None None Case.world))
          !! MorphRDB.config_path Case.morphrdb
        = Some (File (pre +:+ "output.rdflanguage=" +:+ tok +:+ LF +:+ post)).
Proof.
  destruct (MorphRDB.execute_mapping Case.morphrdb "mapping.ttl" "out.nq"
              "nquads" None None None None None None Case.world)
    as [r w1] eqn:E.
  assert (Hr : r = inr true).
  { apply (f_equal fst) in E. cbn [fst] in E. rewrite <- E.
    vm_compute. reflexivity. }
  subst r. cbn [snd].
  destruct (serialization_is_translated Case.morphrdb "mapping.ttl" "out.nq"
              "nquads" None None None None None None Case.world true w1 E)
    as (tok & Htok & _ & Hfile).
  exists tok. split; assumption.
Defined.

(** * Further properties of the adapters *)

(** ** [BURP.execute] *)

Lemma burp_timeout_on_slow_case :
  fst (BURP.execute Case.burp [PStr "-m"; PStr "/data/shared/mapping.ttl"]
         Case.slow_world) = inr false
  ∧ clock (snd (BURP.execute Case.burp
                  [PStr "-m"; PStr "/data/shared/mapping.ttl"]
                  Case.slow_world)) = 21600.
Proof.
  destruct (burp_timeout_is_recovered Case.burp
              [PStr "-m"; PStr "/data/shared/mapping.ttl"]
              ["-m"; "/data/shared/mapping.ttl"] 8589934592 Case.slow_world
              21601 0 "done") as (Hr & _ & Hc).
  - vm_compute. reflexivity.
  - reflexivity.
  - intros cmd. reflexivity.
  - unfold BURP.TIMEOUT. lia.
  - split; [exact Hr|exact Hc].
Defined.

(** X2: a run of BURP that is over within the six hours: [execute] returns what
    the container makes of the exit status, the debug line with the
    arguments comes before the output of the process, the clock has moved by
    the time the process took, and the alarm of the decorator is off. *)
Theorem burp_run_in_time (self : BURP.t) (arguments : list pyval)
    (l : list string) (w : World) (elapsed status : Z) (output : string) :
  0 <= total_memory w < 2 ^ 53 →
  str_join_go 0 arguments = inr l →
  (∀ cmd, engine w (length (launched w)) cmd = Exits elapsed status output) →
  elapsed <= BURP.TIMEOUT →
  let r := BURP.execute self arguments w in
  fst r = inr (if expect_failure (BURP.super self) then negb (status =? 0)
               else status =? 0)
  ∧ log (snd r)
    = log w ++ [(DEBUG, "Executing BURP with arguments " +:+ PyStr.join " " l);
                (DEBUG, output)]
  ∧ length (launched (snd r)) = S (length (launched w))
  ∧ clock (snd r) = clock w + elapsed
  ∧ alarm (snd r) = None.
Proof.
  intros Hm Hl He Ht.
  unfold BURP.execute, try_except, BURP._execute_with_timeout, timeout, bind,
    gets, lift, str_join.
  cbn [total_memory set_alarm]. rewrite (max_heap_half _ Hm), Hl. cbn [pbind].
  unfold Logger_debug, modify, run_and_wait_for_exit.
  cbn [engine launched add_log set_alarm alarm clock].
  rewrite He.
  replace (clock w + BURP.TIMEOUT <? clock w + elapsed) with false
    by (symmetry; apply Z.ltb_ge; lia).
  cbn. rewrite <- app_assoc, length_app. cbn. repeat split; auto. lia.
Qed.

Lemma burp_run_in_time_on_case :
  fst (BURP.execute Case.burp [PStr "-m"; PStr "/data/shared/mapping.ttl"]
         Case.world) = inr true.
Proof.
  refine (proj1 (burp_run_in_time Case.burp
                   [PStr "-m"; PStr "/data/shared/mapping.ttl"]
                   ["-m"; "/data/shared/mapping.ttl"] Case.world 10 0 "done"
                   _ eq_refl (λ _, eq_refl) _)).
  - simpl; lia.
  - unfold BURP.TIMEOUT. lia.
Defined.

Lemma str_join_go_int items : ∀ i,
  Exists (λ v, ∃ n, v = PInt n) items →
  ∃ msg, str_join_go i items = inl (TypeError msg).
Proof.
  induction items as [|v items IH]; intros i Hex; [inversion Hex|].
  cbn [str_join_go]. destruct v as [s|n]; [|eauto].
  apply Exists_cons in Hex as [[n Hn]|Hex]; [discriminate|].
  destruct (IH (S i) Hex) as [msg ->]. eauto.
Qed.

(** X3: [BURP.execute] called with a list that holds an integer anywhere raises
    [TypeError] from the join; nothing has been logged or launched by
    then. *)
Theorem burp_execute_refuses_integers (self : BURP.t) (arguments : list pyval)
    (w : World) :
  0 <= total_memory w < 2 ^ 53 →
  Exists (λ v, ∃ n, v = PInt n) arguments →
  let r := BURP.execute self arguments w in
  (∃ msg, fst r = inl (TypeError msg))
  ∧ launched (snd r) = launched w
  ∧ log (snd r) = log w.
Proof.
  intros Hm Hex.
  destruct (str_join_go_int arguments 0%nat Hex) as [msg Hj].
  unfold BURP.execute, try_except, BURP._execute_with_timeout, timeout, bind,
    gets, lift, str_join.
  cbn [total_memory set_alarm]. rewrite (max_heap_half _ Hm), Hj. cbn.
  eauto.
Qed.

Lemma burp_execute_refuses_integers_on_case :
  ∃ msg, fst (BURP.execute Case.burp [PStr "-b"; PInt 7] Case.world)
         = inl (TypeError msg).
Proof.
  refine (proj1 (burp_execute_refuses_integers Case.burp [PStr "-b"; PInt 7]
                   Case.world _ _)).
  - simpl; lia.
  - apply Exists_cons_tl, Exists_cons_hd. exists 7. reflexivity.
Defined.

(** ** File names *)

(** X4: the arguments BURP is run with: [-m] and the mapping file, then [-o]
    and the output file and [-b] and the base IRI when they are given.  A
    relative file name is put under [/data/shared/]; an absolute one is
    passed as it is, since [os.path.join] drops what comes before it. *)
Theorem burp_arguments (mapping_file : string) (output_file : option string)
    (base_iri : option pyval) :
  BURP.arguments_of mapping_file output_file base_iri
  = [PStr "-m"; PStr (in_shared mapping_file)]
    ++ match output_file with
       | Some o => [PStr "-o"; PStr (in_shared o)]
       | None => []
       end
    ++ match base_iri with
       | Some b => [PStr "-b"; b]
       | None => []
       end.
Proof.
  assert (Hj : ∀ p, os.path.join "/data/shared/" p = in_shared p).
  { intros p. unfold os.path.join, in_shared, PyStr.startswith.
    destruct (String.prefix "/" p); reflexivity. }
  unfold BURP.arguments_of. rewrite Hj.
  destruct output_file as [o|], base_iri as [b|]; rewrite ?Hj; reflexivity.
Qed.

Lemma rsplit_go_plain n : ∀ hd tl,
  PyStr.contains_char "/" n = false →
  PyStr.rsplit_slash_go hd tl n = (hd, tl +:+ n).
Proof.
  induction n as [|c n IH]; intros hd tl Hn.
  - rewrite append_nil_r. reflexivity.
  - cbn [PyStr.contains_char PyStr.rsplit_slash_go] in *.
    rewrite Ascii.eqb_sym.
    destruct (Ascii.eqb "/" c); [discriminate|].
    rewrite IH by assumption. rewrite append_assoc. reflexivity.
Qed.

Lemma rsplit_go_dir d n : ∀ hd tl,
  PyStr.contains_char "/" n = false →
  snd (PyStr.rsplit_slash_go hd tl (d +:+ "/" +:+ n)) = n.
Proof.
  induction d as [|c d IH]; intros hd tl Hn.
  - rewrite append_nil_l.
    change ("/" +:+ n) with (String "/" n). cbn [PyStr.rsplit_slash_go].
    change (Ascii.eqb "/" "/") with true. cbn iota.
    rewrite rsplit_go_plain by assumption. reflexivity.
  - rewrite append_cons. cbn [PyStr.rsplit_slash_go].
    destruct (Ascii.eqb c "/"); apply IH; assumption.
Qed.

Lemma basename_dir d n :
  PyStr.contains_char "/" n = false → os.path.basename (d +:+ "/" +:+ n) = n.
Proof. intros Hn. apply rsplit_go_dir, Hn. Qed.

Lemma basename_plain n :
  PyStr.contains_char "/" n = false → os.path.basename n = n.
Proof.
  intros Hn. unfold os.path.basename, PyStr.rsplit_slash.
  rewrite rsplit_go_plain by assumption. reflexivity.
Qed.

(** X5: Morph-RDB keeps the base names of the mapping and output files only:
    whatever directory they are given in, the run is the one for the bare
    names. *)
Theorem morphrdb_uses_base_names (self : MorphRDB.t)
    (mapping_dir mapping_name output_dir output_name serialization : string)
    (rdb_username rdb_password rdb_host rdb_port rdb_name rdb_type
       : option string) :
  PyStr.contains_char "/" mapping_name = false →
  PyStr.contains_char "/" output_name = false →
  MorphRDB.execute_mapping self (mapping_dir +:+ "/" +:+ mapping_name)
    (output_dir +:+ "/" +:+ output_name) serialization
    rdb_username rdb_password rdb_host rdb_port rdb_name rdb_type
  = MorphRDB.execute_mapping self mapping_name output_name serialization
      rdb_username rdb_password rdb_host rdb_port rdb_name rdb_type.
Proof.
  intros Hm Ho. unfold MorphRDB.execute_mapping, MorphRDB.config_of.
  rewrite !basename_dir, !basename_plain by assumption. reflexivity.
Qed.

Lemma morphrdb_uses_base_names_on_case :
  MorphRDB.execute_mapping Case.morphrdb ("/home/me" +:+ "/" +:+ "mapping.ttl")
    ("results" +:+ "/" +:+ "out.nq") "nquads" None None None None None None
  = MorphRDB.execute_mapping Case.morphrdb "mapping.ttl" "out.nq" "nquads"
      None None None None None None.
Proof.
  apply morphrdb_uses_base_names; reflexivity.
Defined.

(** ** Refusals and the order of effects in [MorphRDB.execute_mapping] *)

Local Arguments configparser.before_set : simpl never.

Lemma set_refused sect o v d e :
  configparser.before_set v = inl e →
  configparser.set sect o v [(sect, d)] = inl e.
Proof.
  intros Hb. unfold configparser.set.
  destruct (String.eqb v "") eqn:Hv.
  - apply String.eqb_eq in Hv. subst v. vm_compute in Hb. discriminate.
  - rewrite Hb. reflexivity.
Qed.

(** X6: a mapping file whose name fails the interpolation check of
    [configparser] (a percent sign that is neither doubled nor part of a
    [%(name)s]) makes [MorphRDB.execute_mapping] raise that [ValueError];
    the world is as it was. *)
Theorem morphrdb_refuses_percent (self : MorphRDB.t)
    (mapping_file output_file serialization : string)
    (rdb_username rdb_password rdb_host rdb_port rdb_name rdb_type
       : option string) (e : exn) (w : World) :
  serialization = "nquads" ∨ serialization = "ntriples" →
  configparser.before_set
    (os.path.join "shared" (os.path.basename mapping_file)) = inl e →
  is_ValueError e
  ∧ MorphRDB.execute_mapping self mapping_file output_file serialization
      rdb_username rdb_password rdb_host rdb_port rdb_name rdb_type w
    = (inl e, w).
Proof.
  intros Hs Hb. split.
  - destruct (before_set_inv
                (os.path.join "shared" (os.path.basename mapping_file)))
      as [[msg Hm]|Hm]; rewrite Hm in Hb; [|discriminate].
    injection Hb as <-. eexists. reflexivity.
  - unfold MorphRDB.execute_mapping, MorphRDB.config_of.
    destruct Hs as [-> | ->]; cbn; norm_keys; cbn.
    all: rewrite (set_refused _ _ _ _ _ Hb); reflexivity.
Qed.

Lemma morphrdb_refuses_percent_on_case :
  ∃ msg,
    MorphRDB.execute_mapping Case.morphrdb "100%.ttl" "out.nq" "nquads"
      None None None None None None Case.world
    = (inl (ValueError msg), Case.world).
Proof.
  eexists.
  refine (proj2 (morphrdb_refuses_percent Case.morphrdb "100%.ttl" "out.nq"
                   "nquads" None None None None None None _ Case.world
                   (or_introl eq_refl) _)).
  vm_compute. reflexivity.
Defined.

Lemma morphrdb_execute_launched self args w :
  launched (snd (MorphRDB.execute self args w)) = launched w
  ∨ ∃ cmd, launched (snd (MorphRDB.execute self args w)) = launched w ++ [cmd].
Proof.
  unfold MorphRDB.execute, try_except, MorphRDB._execute_with_timeout, bind,
    gets, lift, ret.
  destruct (max_heap (total_memory w)) as [e|h]; [left; destruct e; reflexivity|].
  right.
  match goal with |- context [run_and_wait_for_exit ?c ?cmd ?w'] =>
    exists cmd; pose proof (run_and_wait_launched c cmd w') as R;
    destruct (run_and_wait_for_exit c cmd w') as [[e|b] w2] end.
  - cbn [snd] in R. destruct e; cbn; exact R.
  - exact R.
Qed.

Lemma morphrdb_run_cases self m o s U P H Po N K w r w' :
  MorphRDB.execute_mapping self m o s U P H Po N K w = (r, w') →
  launched w' = launched w
  ∨ ∃ cfg cmd,
      MorphRDB.config_of m o s U P H Po N K = inr cfg
      ∧ launched w' = launched w ++ [cmd]
      ∧ written w'
        = written w ++ [(MorphRDB.config_path self, first_artifact cfg);
                        (MorphRDB.config_path self, final_artifact cfg)]
      ∧ fs w' !! MorphRDB.config_path self = Some (File (final_artifact cfg)).
Proof.
  unfold MorphRDB.execute_mapping.
  destruct (MorphRDB.config_of _ _ _ _ _ _ _ _ _) as [e|cfg] eqn:Hc;
    [intros [= _ <-]; left; reflexivity|].
  unfold bind at 1. unfold lift.
  unfold bind at 1. unfold os.umask, modify.
  unfold bind at 1.
  destruct (os.makedirs _ true (set_umask 0 w)) as [[e|[]] w2] eqn:Hmk.
  { intros [= _ <-]. left. unfold os.makedirs in Hmk. cbn [negb andb] in Hmk.
    destruct (os.makedirs_go _ _ _) as [r0 mm]. injection Hmk as _ <-.
    reflexivity. }
  apply makedirs_inr in Hmk as (_ & _ & mm & ->).
  unfold bind at 1.
  fold (MorphRDB.config_path self). fold (first_artifact cfg).
  destruct (write_file (MorphRDB.config_path self) (first_artifact cfg) _)
    as [[e|[]] w3] eqn:Hw1.
  { intros [= _ <-]. left. unfold write_file in Hw1.
    destruct (fs _ !! MorphRDB.config_path self) as [[|c0]|];
      [injection Hw1 as _ <-; reflexivity| |].
    all: destruct (os.isdir _ _); [discriminate|].
    all: injection Hw1 as _ <-; reflexivity. }
  pose proof (write_after_write _ _ (final_artifact cfg) _ _ Hw1) as Hw2.
  apply write_file_inr in Hw1 as (-> & _ & _).
  unfold bind at 1. rewrite read_after_write.
  unfold bind at 1. fold (final_artifact cfg). rewrite Hw2.
  intros Hex.
  match type of Hex with MorphRDB.execute ?s ?a ?w4 = _ =>
    pose proof (morphrdb_execute_frame s a w4) as Hfr;
    pose proof (morphrdb_execute_launched s a w4) as Hl end.
  rewrite Hex in Hfr, Hl. cbn [snd] in Hfr, Hl. destruct Hfr as (Hfs & Hwr & _).
  destruct Hl as [Hl|[cmd Hl]]; [left; exact Hl|].
  right. exists cfg, cmd. split; [reflexivity|].
  split; [exact Hl|]. rewrite Hfs, Hwr.
  cbn [fs written add_written set_fs set_umask].
  rewrite lookup_insert_eq, <- app_assoc. auto.
Qed.

(** X7: [MorphRDB.execute_mapping] hands a command over only after the
    configuration has been written twice, header and all and then without:
    either nothing was launched, or one command was, both writes are on
    record and the file holds the final content. *)
Theorem morphrdb_writes_before_it_launches (self : MorphRDB.t)
    (mapping_file output_file serialization : string)
    (rdb_username rdb_password rdb_host rdb_port rdb_name rdb_type
       : option string) (w : World) :
  let r := MorphRDB.execute_mapping self mapping_file output_file
             serialization rdb_username rdb_password rdb_host rdb_port
             rdb_name rdb_type w in
  launched (snd r) = launched w
  ∨ ∃ cfg cmd,
      MorphRDB.config_of mapping_file output_file serialization rdb_username
        rdb_password rdb_host rdb_port rdb_name rdb_type = inr cfg
      ∧ launched (snd r) = launched w ++ [cmd]
      ∧ written (snd r)
        = written w ++ [(MorphRDB.config_path self, first_artifact cfg);
                        (MorphRDB.config_path self, final_artifact cfg)]
      ∧ fs (snd r) !! MorphRDB.config_path self
        = Some (File (final_artifact cfg)).
Proof.
  cbv zeta.
  destruct (MorphRDB.execute_mapping self mapping_file output_file
              serialization rdb_username rdb_password rdb_host rdb_port
              rdb_name rdb_type w) as [r w'] eqn:E.
  cbn [snd]. eapply morphrdb_run_cases, E.
Qed.

(** ** Directories *)

Lemma append_eq_nil a b : a +:+ b = "" → a = "" ∧ b = "".
Proof. destruct a; [auto|discriminate]. Qed.

Lemma endswith_app a b c :
  b ≠ "" → PyStr.endswith_char (a +:+ b) c = PyStr.endswith_char b c.
Proof.
  intros Hb. induction a as [|d a IH]; [reflexivity|].
  rewrite append_cons. cbn [PyStr.endswith_char].
  destruct (a +:+ b) as [|e t] eqn:E.
  - apply append_eq_nil in E as [_ ->]. congruence.
  - exact IH.
Qed.

Lemma ancestors_leaf s : ∀ acc,
  PyStr.endswith_char (acc +:+ s) "/" = false → acc +:+ s ≠ "" →
  acc +:+ s ∈ os.ancestors_go acc s.
Proof.
  induction s as [|c s IH]; intros acc He Hne.
  - rewrite append_nil_r in *. cbn [os.ancestors_go].
    replace (String.eqb acc "") with false
      by (symmetry; apply String.eqb_neq, Hne).
    rewrite He. apply list_elem_of_singleton. reflexivity.
  - assert (Hs : acc +:+ String c s = (acc +:+ String c "") +:+ s)
      by (rewrite append_assoc; reflexivity).
    rewrite Hs in *. cbn [os.ancestors_go].
    destruct (Ascii.eqb c "/") eqn:Hc.
    + apply Ascii.eqb_eq in Hc. subst c.
      apply elem_of_app. right. apply IH; assumption.
    + apply IH; assumption.
Qed.

Lemma leaf_is_made name w :
  PyStr.endswith_char name "/" = false → name ≠ "" →
  made name w → is_dir (fs w !! name) = true.
Proof.
  intros He Hne Hm. rewrite (Hm name); [reflexivity|].
  apply (ancestors_leaf name ""); assumption.
Qed.

Lemma join_leaf a b :
  String.prefix "/" b = false → b ≠ "" →
  PyStr.endswith_char b "/" = false →
  PyStr.endswith_char (os.path.join a b) "/" = false
  ∧ os.path.join a b ≠ "".
Proof.
  intros Hp Hb He. unfold os.path.join, PyStr.startswith. rewrite Hp.
  destruct (String.eqb a "" || PyStr.endswith_char a "/").
  - split; [rewrite endswith_app by assumption; exact He|].
    intros H. apply append_eq_nil in H as [_ ?]. congruence.
  - rewrite <- append_assoc.
    split; [rewrite endswith_app by assumption; exact He|].
    intros H. apply append_eq_nil in H as [_ ?]. congruence.
Qed.

(** X8: once an adapter is constructed its private directory is there:
    [<data_path>/burp] for BURP, [<data_path>/morphrdb] for Morph-RDB.
    Morph-RDB has set the mask of the process to 0 on the way; BURP leaves
    it alone. *)
Theorem construction_makes_the_directories :
  (∀ data_path config_path directory verbose expect_failure w
     (a : BURP.t) w1,
     BURP.__init__ data_path config_path directory verbose expect_failure w
     = (inr a, w1) →
     is_dir (fs w1 !! os.path.join (BURP._data_path a) "burp") = true
     ∧ umask w1 = umask w)
  ∧ (∀ data_path config_path directory verbose w (a : MorphRDB.t) w1,
       MorphRDB.__init__ data_path config_path directory verbose w
       = (inr a, w1) →
       is_dir (fs w1 !! os.path.join (MorphRDB._data_path a) "morphrdb") = true
       ∧ umask w1 = 0).
Proof.
  split.
  - intros dp cp dir v ef w a w1.
    unfold BURP.__init__, os.path.abspath.
    unfold bind at 1. unfold bind at 1. unfold bind at 1.
    destruct (os.makedirs _ true w) as [[e|[]] w2] eqn:Hmk; [discriminate|].
    unfold bind at 1.
    destruct (Container__init__ _ _ _ _ _ w2) as [[e|c] w3] eqn:Hc;
      [discriminate|].
    unfold ret. intros [= <- <-]. cbn [BURP._data_path].
    apply makedirs_inr in Hmk as (Hmade & _ & m & ->).
    apply container_init_inr in Hc as (_ & Hmono & (m' & ->) & _).
    split; [|reflexivity].
    destruct (join_leaf
                (os.path.normpath
                   (if os.path.isabs dp then dp else os.path.join (cwd w) dp))
                "burp" eq_refl ltac:(discriminate) eq_refl) as [He Hne].
    apply leaf_is_made; [assumption..|]. apply Hmono, Hmade.
  - intros dp cp dir v w a w1.
    unfold MorphRDB.__init__, os.path.abspath.
    unfold bind at 1. unfold bind at 1. unfold bind at 1.
    unfold os.umask, modify. unfold bind at 1.
    destruct (os.makedirs _ true (set_umask 0 w)) as [[e|[]] w2] eqn:Hmk;
      [discriminate|].
    unfold bind at 1.
    destruct (Container__init__ _ _ _ _ _ w2) as [[e|c] w3] eqn:Hc;
      [discriminate|].
    unfold ret. intros [= <- <-]. cbn [MorphRDB._data_path].
    apply makedirs_inr in Hmk as (Hmade & _ & m & ->).
    apply container_init_inr in Hc as (_ & Hmono & (m' & ->) & _).
    split; [|reflexivity].
    destruct (join_leaf
                (os.path.normpath
                   (if os.path.isabs dp then dp else os.path.join (cwd w) dp))
                "morphrdb" eq_refl ltac:(discriminate) eq_refl) as [He Hne].
    apply leaf_is_made; [assumption..|]. apply Hmono, Hmade.
Qed.

Lemma construction_makes_the_directories_on_case :
  ∃ w1,
    MorphRDB.__init__ "/data/case" "/config" "/log" false Case.world
    = (inr Case.morphrdb, w1)
    ∧ is_dir (fs w1 !! "/data/case/morphrdb") = true
    ∧ umask w1 = 0.
Proof.
  destruct (MorphRDB.__init__ "/data/case" "/config" "/log" false Case.world)
    as [r w1] eqn:E.
  assert (Hr : r = inr Case.morphrdb).
  { apply (f_equal fst) in E. cbn [fst] in E. rewrite <- E.
    vm_compute. reflexivity. }
  subst r. exists w1. split; [reflexivity|].
  exact (proj2 construction_makes_the_directories "/data/case" "/config"
           "/log" false Case.world Case.morphrdb w1 E).
Defined.

Lemma makedirs_go_blocked name c dirs : ∀ m,
  name ∈ dirs →
  (∀ a, a ∈ dirs → a ≠ name → m !! a = Some Dir) →
  m !! name = Some (File c) →
  os.makedirs_go name dirs m = (inl (FileExistsError name), m).
Proof.
  induction dirs as [|d dirs IH]; intros m Hin Hdirs Hname; [inversion Hin|].
  cbn [os.makedirs_go].
  destruct (decide (d = name)) as [->|Hne].
  - rewrite Hname, String.eqb_refl. reflexivity.
  - rewrite (Hdirs d) by (auto; apply elem_of_cons; auto).
    rewrite insert_id by (apply Hdirs; auto; apply elem_of_cons; auto).
    apply IH; [|intros a Ha; apply Hdirs, elem_of_cons; auto|assumption].
    apply elem_of_cons in Hin as [?|?]; [congruence|assumption].
Qed.

(** X9: when [<data_path>/burp] is a regular file (and the directories above
    it exist), [BURP.__init__] fails with the [FileExistsError] of
    [os.makedirs], which [exist_ok] does not silence for a file; the world
    is left as it was. *)
Theorem burp_construction_blocked_by_a_file
    (data_path config_path directory : string) (verbose expect_failure : bool)
    (w : World) (content : string) :
  let path :=
    os.path.join
      (os.path.normpath (if os.path.isabs data_path then data_path
                         else os.path.join (cwd w) data_path)) "burp" in
  fs w !! path = Some (File content) →
  (∀ a, a ∈ os.ancestors path → a ≠ path → fs w !! a = Some Dir) →
  BURP.__init__ data_path config_path directory verbose expect_failure w
  = (inl (FileExistsError path), w).
Proof.
  intros path Hf Hd.
  unfold BURP.__init__, os.path.abspath.
  unfold bind at 1. unfold bind at 1. unfold bind at 1.
  fold path. unfold os.makedirs. cbn [negb andb].
  destruct (join_leaf
              (os.path.normpath
                 (if os.path.isabs data_path then data_path
                  else os.path.join (cwd w) data_path))
              "burp" eq_refl ltac:(discriminate) eq_refl) as [He Hne].
  fold path in He, Hne.
  rewrite (makedirs_go_blocked path content) by
    (try assumption; apply (ancestors_leaf path ""); assumption).
  rewrite set_fs_id. reflexivity.
Qed.

Lemma burp_construction_blocked_on_case :
  BURP.__init__ "/data/case" "/config" "/log" false false blocked_world
  = (inl (FileExistsError "/data/case/burp"), blocked_world).
Proof.
  refine (burp_construction_blocked_by_a_file "/data/case" "/config" "/log"
            false false blocked_world "x" _ _).
  - vm_compute. reflexivity.
  - intros a Ha Hne.
    change (os.ancestors _) with ["/data"; "/data/case"; "/data/case/burp"] in Ha.
    change (os.path.join _ "burp") with "/data/case/burp" in Hne.
    apply elem_of_cons in Ha as [->|Ha]; [vm_compute; reflexivity|].
    apply elem_of_cons in Ha as [->|Ha]; [vm_compute; reflexivity|].
    apply list_elem_of_singleton in Ha. congruence.
Defined.

(** ** The configuration that is built *)

(** *** Strings without a given character *)

Lemma contains_app c a b :
  PyStr.contains_char c (a +:+ b)
  = PyStr.contains_char c a || PyStr.contains_char c b.
Proof.
  induction a as [|d a IH]; [reflexivity|].
  rewrite append_cons. cbn [PyStr.contains_char].
  destruct (Ascii.eqb c d); [reflexivity|exact IH].
Qed.

Lemma contains_drop c n : ∀ s,
  PyStr.contains_char c s = false → PyStr.contains_char c (PyStr.drop n s) = false.
Proof.
  induction n as [|n IH]; intros [|d s] Hs; cbn [PyStr.drop]; auto.
  cbn [PyStr.contains_char] in Hs.
  destruct (Ascii.eqb c d); [discriminate|auto].
Qed.

Lemma contains_replace c old new n : ∀ s,
  (String.length s <= n)%nat →
  PyStr.contains_char c new = false → PyStr.contains_char c s = false →
  PyStr.contains_char c (PyStr.replace old new s) = false.
Proof.
  induction n as [|n IH]; intros s Hlen Hnew Hs.
  - destruct s; [|cbn in Hlen; lia]. rewrite replace_nil. reflexivity.
  - destruct s as [|d s]; [rewrite replace_nil; reflexivity|].
    rewrite replace_cons. cbn [PyStr.contains_char String.length] in *.
    destruct (Ascii.eqb c d) eqn:Hd; [discriminate|].
    destruct (String.prefix old (String d s)).
    + rewrite contains_app, Hnew. cbn [orb].
      apply IH; [|assumption|apply contains_drop, Hs].
      pose proof (PyStr.length_drop (Nat.pred (String.length old)) s). lia.
    + cbn [PyStr.contains_char]. rewrite Hd. apply IH; [lia|assumption..].
Qed.

Lemma contains_rsplit c s : ∀ hd tl,
  PyStr.contains_char c tl = false → PyStr.contains_char c s = false →
  PyStr.contains_char c (snd (PyStr.rsplit_slash_go hd tl s)) = false.
Proof.
  induction s as [|d s IH]; intros hd tl Ht Hs; [exact Ht|].
  cbn [PyStr.rsplit_slash_go PyStr.contains_char] in *.
  destruct (Ascii.eqb c d) eqn:Hd; [discriminate|].
  destruct (Ascii.eqb d "/"); apply IH; try assumption; try reflexivity.
  rewrite contains_app, Ht. cbn [PyStr.contains_char orb]. rewrite Hd.
  reflexivity.
Qed.

Lemma contains_basename c p :
  PyStr.contains_char c p = false →
  PyStr.contains_char c (os.path.basename p) = false.
Proof. intros Hp. apply contains_rsplit; auto. Qed.

Lemma contains_join c a b :
  c ≠ "/"%char →
  PyStr.contains_char c a = false → PyStr.contains_char c b = false →
  PyStr.contains_char c (os.path.join a b) = false.
Proof.
  intros Hc Ha Hb. unfold os.path.join.
  destruct (PyStr.startswith b "/"); [assumption|].
  destruct (String.eqb a "" || PyStr.endswith_char a "/");
    rewrite !contains_app, Ha, Hb; [reflexivity|].
  cbn [PyStr.contains_char orb].
  replace (Ascii.eqb c "/") with false; [reflexivity|].
  symmetry. apply Ascii.eqb_neq, Hc.
Qed.

(** *** The interpolation check lets a value without percent sign pass *)

Lemma prefix_other c old d s :
  c ≠ d → String.prefix (String c old) (String d s) = false.
Proof.
  intros Hne. cbn [String.prefix].
  destruct (ascii_dec c d); [congruence|reflexivity].
Qed.

Lemma replace_absent c old new s :
  PyStr.contains_char c s = false →
  PyStr.replace (String c old) new s = s.
Proof.
  induction s as [|d s IH]; [intros _; apply replace_nil|].
  cbn [PyStr.contains_char]. destruct (Ascii.eqb c d) eqn:Hd; [discriminate|].
  intros Hs. apply Ascii.eqb_neq in Hd.
  rewrite replace_cons, prefix_other by assumption. rewrite IH by assumption.
  reflexivity.
Qed.

Lemma keycre_match_other c s :
  Ascii.eqb "%" c = false → configparser.keycre_match (String c s) = None.
Proof.
  intros Hc. destruct c as [[] [] [] [] [] [] [] []];
    try reflexivity. discriminate.
Qed.

Lemma keycre_sub_plain s :
  PyStr.contains_char "%" s = false → configparser.keycre_sub s = s.
Proof.
  induction s as [|c s IH]; [intros _; apply configparser.keycre_sub_equation_1|].
  cbn [PyStr.contains_char]. destruct (Ascii.eqb "%" c) eqn:Hc; [discriminate|].
  intros Hs. rewrite configparser.keycre_sub_equation_2.
  rewrite keycre_match_other by assumption. rewrite IH by assumption.
  reflexivity.
Qed.

Lemma before_set_plain v :
  PyStr.contains_char "%" v = false → configparser.before_set v = inr v.
Proof.
  intros Hv. unfold configparser.before_set.
  rewrite (replace_absent "%" "%" "" v Hv), keycre_sub_plain, Hv by assumption.
  reflexivity.
Qed.

Lemma set_single_plain sect o v d :
  PyStr.contains_char "%" v = false →
  configparser.set sect o v [(sect, d)]
  = inr [(sect, configparser.dict_set (configparser.optionxform o) v d)].
Proof.
  intros Hv. unfold configparser.set.
  cbn [configparser.dict_get configparser.dict_set]. rewrite String.eqb_refl.
  destruct (String.eqb v ""); [reflexivity|].
  rewrite before_set_plain by assumption. reflexivity.
Qed.

Ltac solve_free :=
  first
    [ assumption
    | reflexivity
    | apply contains_join;
      [discriminate|reflexivity|apply contains_basename; assumption]
    | rewrite !contains_app;
      repeat match goal with
             | H : PyStr.contains_char _ _ = false |- _ => rewrite H
             end; reflexivity ].

Ltac step_plain :=
  rewrite set_single_plain by solve_free; cbn; norm_keys; cbn.

(** X10: with all six credentials, a kind that is [MySQL] or [PostgreSQL], a
    serialization the adapter knows and no percent sign in any value, the
    configuration is built and holds ten options in this order: the three
    of the files, then name, driver, type, URL, user, password and
    [no_of_database] for the one database. *)
Theorem configuration_of_a_database_request
    (mapping_file output_file serialization tok : string)
    (rdb_username rdb_password rdb_host rdb_port rdb_name rdb_type : string) :
  token serialization = Some tok →
  rdb_type = "MySQL" ∨ rdb_type = "PostgreSQL" →
  PyStr.contains_char "%" mapping_file = false →
  PyStr.contains_char "%" output_file = false →
  PyStr.contains_char "%" rdb_username = false →
  PyStr.contains_char "%" rdb_password = false →
  PyStr.contains_char "%" rdb_host = false →
  PyStr.contains_char "%" rdb_port = false →
  PyStr.contains_char "%" rdb_name = false →
  MorphRDB.config_of mapping_file output_file serialization
    (Some rdb_username) (Some rdb_password) (Some rdb_host) (Some rdb_port)
    (Some rdb_name) (Some rdb_type)
  = inr [("root",
          base_items mapping_file output_file tok
          ++ database_items (Some rdb_username) (Some rdb_password)
               (Some rdb_host) (Some rdb_port) (Some rdb_name)
               (Some rdb_type))].
Proof.
  intros Ht Hk Hm Ho Hu Hp Hh Hport Hname.
  apply token_cases in Ht.
  unfold MorphRDB.config_of, base_items, database_items,
    configparser.setitem_option.
  destruct Ht as [[-> ->]|[-> ->]]; destruct Hk as [-> | ->].
  all: cbn; norm_keys; cbn.
  all: repeat step_plain.
  all: reflexivity.
Qed.

Lemma configuration_of_a_mysql_request :
  MorphRDB.config_of "mapping.ttl" "out.nq" "nquads" (Some "root")
    (Some "secret") (Some "db.example") (Some "3306") (Some "bench")
    (Some "MySQL")
  = inr [("root",
          [("mappingdocument.file.path", "shared/mapping.ttl");
           ("output.file.path", "shared/out.nq");
           ("output.rdflanguage", "N-QUADS");
           ("database.name[0]", "bench");
           ("database.driver[0]", "com.mysql.jdbc.Driver");
           ("database.type[0]", "mysql");
           ("database.url[0]",
            "jdbc:mysql://db.example:3306/bench?allowPublicKeyRetrieval=true&useSSL=false");
           ("database.user[0]", "root");
           ("database.pwd[0]", "secret");
           ("no_of_database", "1")])].
Proof.
  exact (configuration_of_a_database_request "mapping.ttl" "out.nq" "nquads"
           "N-QUADS" "root" "secret" "db.example" "3306" "bench" "MySQL"
           eq_refl (or_introl eq_refl) eq_refl eq_refl eq_refl eq_refl eq_refl
           eq_refl eq_refl).
Defined.

(** ** The file that is left *)

Lemma strip_absent s : no_open_r s = true → PyStr.replace ROOT "" s = s.
Proof.
  induction s as [|c s IH]; [intros _; apply replace_nil|].
  cbn [no_open_r]. intros H. apply andb_true_iff in H as [Hc Hs].
  rewrite replace_cons.
  destruct (String.prefix ROOT (String c s)) eqn:Hp.
  - apply prefix_root in Hp. rewrite root_app in Hp.
    destruct s as [|d s]; [discriminate|].
    injection Hp as -> -> _. cbn in Hc. destruct s; discriminate.
  - rewrite IH by assumption. reflexivity.
Qed.

Lemma prefix_app_l c a b :
  a ≠ "" → String.prefix (String c "") (a +:+ b) = String.prefix (String c "") a.
Proof.
  destruct a as [|d a]; [congruence|]. intros _. rewrite append_cons.
  cbn [String.prefix]. destruct (ascii_dec c d); [|reflexivity].
  destruct (a +:+ b), a; reflexivity.
Qed.

Lemma no_open_r_app a b :
  no_open_r a = true → no_open_r b = true →
  PyStr.endswith_char a "[" = false →
  no_open_r (a +:+ b) = true.
Proof.
  induction a as [|c a IH]; [auto|]. intros Ha Hb He.
  rewrite append_cons. cbn [no_open_r] in *.
  apply andb_true_iff in Ha as [Hc Ha].
  destruct a as [|d a].
  - rewrite append_nil_l. cbn [PyStr.endswith_char] in He.
    rewrite Ascii.eqb_sym in He. rewrite He. cbn [andb negb]. exact Hb.
  - rewrite prefix_app_l by discriminate. rewrite Hc. cbn [andb].
    apply IH; assumption.
Qed.

Lemma free_no_open_r s :
  PyStr.contains_char "[" s = false →
  no_open_r s = true ∧ PyStr.endswith_char s "[" = false.
Proof.
  induction s as [|c s IH]; [auto|]. cbn [PyStr.contains_char].
  destruct (Ascii.eqb "[" c) eqn:Hc; [discriminate|]. intros Hs.
  destruct (IH Hs) as [Hn He]. cbn [no_open_r PyStr.endswith_char].
  rewrite Ascii.eqb_sym, Hc, Hn. split; [reflexivity|].
  destruct s; [reflexivity|exact He].
Qed.

Lemma items_no_open_r items t :
  Forall (λ kv, no_open_r (fst kv) = true
                ∧ PyStr.endswith_char (fst kv) "[" = false
                ∧ PyStr.contains_char "[" (snd kv) = false) items →
  no_open_r t = true →
  no_open_r (configparser.concat_map (configparser.write_item "=") items +:+ t)
  = true.
Proof.
  intros Hall Ht. induction Hall as [|kv items (Hk & He & Hv) _ IH]; [exact Ht|].
  cbn [configparser.concat_map]. unfold configparser.write_item at 1.
  rewrite !append_assoc.
  apply no_open_r_app; [exact Hk| |exact He].
  assert (Hline : PyStr.contains_char "["
                    ("=" +:+ PyStr.replace LF (LF +:+ configparser.TAB) (snd kv)
                     +:+ LF) = false).
  { rewrite !contains_app.
    rewrite (contains_replace _ _ _ (String.length (snd kv))) by auto.
    reflexivity. }
  apply free_no_open_r in Hline as [Hn Hend].
  match goal with |- no_open_r ?g = true =>
    replace g with
      (("=" +:+ PyStr.replace LF (LF +:+ configparser.TAB) (snd kv) +:+ LF)
       +:+ configparser.concat_map (configparser.write_item "=") items +:+ t)
      by (rewrite !append_assoc; reflexivity)
  end.
  apply no_open_r_app; assumption.
Qed.

Lemma items_brackets m o tok U P H Po N K :
  PyStr.contains_char "[" m = false → PyStr.contains_char "[" o = false →
  PyStr.contains_char "[" tok = false →
  opt_free "[" U = true → opt_free "[" P = true → opt_free "[" H = true →
  opt_free "[" Po = true → opt_free "[" N = true →
  Forall (λ kv, no_open_r (fst kv) = true
                ∧ PyStr.endswith_char (fst kv) "[" = false
                ∧ PyStr.contains_char "[" (snd kv) = false)
    (base_items m o tok ++ database_items U P H Po N K).
Proof.
  intros Hm Ho Ht HU HP HH HPo HN.
  apply Forall_app. split.
  - unfold base_items.
    repeat constructor; cbn [fst snd]; try assumption;
      apply contains_join; try reflexivity; try discriminate;
      apply contains_basename; assumption.
  - unfold database_items.
    destruct U as [u|]; [|constructor]. destruct P as [p|]; [|constructor].
    destruct H as [h|]; [|constructor]. destruct Po as [po|]; [|constructor].
    destruct N as [n|]; [|constructor]. destruct K as [k|]; [|constructor].
    cbn [opt_free] in *.
    apply negb_true_iff in HU, HP, HH, HPo, HN.
    destruct (String.eqb k "MySQL"); [|destruct (String.eqb k "PostgreSQL")].
    3: constructor.
    all: repeat constructor; cbn [fst snd]; try assumption.
    all: rewrite !contains_app, HH, HPo, HN; reflexivity.
Qed.

Lemma token_free s tok :
  token s = Some tok → PyStr.contains_char "[" tok = false.
Proof.
  intros Ht. apply token_cases in Ht as [[_ ->]|[_ ->]]; reflexivity.
Qed.

(** X11: when no parameter holds a carriage return or an opening bracket, the
    [config.properties] that a run leaves is exactly the options of the
    configuration, one [key=value] line each (a tab after every line feed
    inside a value), followed by one empty line: taking out the header
    has removed nothing else. *)
Theorem config_file_is_the_options (self : MorphRDB.t)
    (mapping_file output_file serialization : string)
    (rdb_username rdb_password rdb_host rdb_port rdb_name rdb_type
       : option string) (w : World) (b : bool) (w' : World) :
  no_cr mapping_file = true → no_cr output_file = true →
  no_cr_opt rdb_username = true → no_cr_opt rdb_password = true →
  no_cr_opt rdb_host = true → no_cr_opt rdb_port = true →
  no_cr_opt rdb_name = true →
  PyStr.contains_char "[" mapping_file = false →
  PyStr.contains_char "[" output_file = false →
  opt_free "[" rdb_username = true → opt_free "[" rdb_password = true →
  opt_free "[" rdb_host = true → opt_free "[" rdb_port = true →
  opt_free "[" rdb_name = true →
  MorphRDB.execute_mapping self mapping_file output_file serialization
    rdb_username rdb_password rdb_host rdb_port rdb_name rdb_type w
  = (inr b, w') →
  ∃ tok,
    token serialization = Some tok
    ∧ fs w' !! MorphRDB.config_path self
      = Some (File (configparser.concat_map (configparser.write_item "=")
                      (base_items mapping_file output_file tok
                       ++ database_items rdb_username rdb_password rdb_host
                            rdb_port rdb_name rdb_type)
                    +:+ LF)).
Proof.
  intros Cm Co CU CP CH CPo CN Bm Bo BU BP BH BPo BN Hrun.
  apply execute_mapping_result in Hrun as (cfg & Hc & Hf & _).
  apply config_of_inr in Hc as (tok & Ht & ->).
  exists tok. split; [exact Ht|]. rewrite Hf. do 2 f_equal.
  unfold final_artifact. rewrite first_artifact_root.
  rewrite universal_newlines_id.
  - rewrite strip_root. apply strip_absent.
    apply items_no_open_r; [|reflexivity].
    apply items_brackets; try assumption. eapply token_free, Ht.
  - rewrite !no_cr_app. rewrite no_cr_items; [reflexivity|].
    apply items_no_cr; try assumption. eapply token_no_cr, Ht.
Qed.

Lemma config_file_is_the_options_on_case :
  fs (snd (MorphRDB.execute_mapping Case.morphrdb "mapping.ttl" "out.nq"
             "ntriples" (Some "root") (Some "secret") (Some "db.example")
             (Some "5432") (Some "bench") (Some "PostgreSQL") Case.world))
    !! MorphRDB.config_path Case.morphrdb
  = Some (File (configparser.concat_map (configparser.write_item "=")
                  (base_items "mapping.ttl" "out.nq" "N-TRIPLE"
                   ++ database_items (Some "root") (Some "secret")
                        (Some "db.example") (Some "5432") (Some "bench")
                        (Some "PostgreSQL"))
                +:+ LF)).
Proof.
  destruct (MorphRDB.execute_mapping Case.morphrdb "mapping.ttl" "out.nq"
              "ntriples" (Some "root") (Some "secret") (Some "db.example")
              (Some "5432") (Some "bench") (Some "PostgreSQL") Case.world)
    as [r w1] eqn:E.
  assert (Hr : r = inr true).
  { apply (f_equal fst) in E. cbn [fst] in E. rewrite <- E.
    vm_compute. reflexivity. }
  subst r. cbn [snd].
  destruct (config_file_is_the_options Case.morphrdb "mapping.ttl" "out.nq"
              "ntriples" (Some "root") (Some "secret") (Some "db.example")
              (Some "5432") (Some "bench") (Some "PostgreSQL") Case.world
              true w1 eq_refl eq_refl eq_refl eq_refl eq_refl eq_refl eq_refl
              eq_refl eq_refl eq_refl eq_refl eq_refl eq_refl eq_refl E)
    as (tok & Ht & Hf).
  injection Ht as <-. exact Hf.
Defined.

(** ** Header text inside a value *)

Lemma strip_app a b :
  no_open_r a = true → PyStr.endswith_char a "[" = false →
  PyStr.replace ROOT "" (a +:+ b) = a +:+ PyStr.replace ROOT "" b.
Proof.
  induction a as [|c a IH]; [reflexivity|]. intros Ha He.
  cbn [no_open_r] in Ha. apply andb_true_iff in Ha as [Hc Ha].
  rewrite !append_cons, replace_cons.
  destruct (String.prefix ROOT (String c (a +:+ b))) eqn:Hp.
  - exfalso. apply prefix_root in Hp. rewrite root_app in Hp.
    injection Hp as -> Hp.
    destruct a as [|d a].
    + cbn in He. discriminate.
    + rewrite append_cons in Hp. injection Hp as -> _.
      cbn in Hc. destruct a; discriminate.
  - rewrite IH; [reflexivity|assumption|].
    destruct a; [reflexivity|exact He].
Qed.

Lemma join_shared b :
  String.prefix "/" b = false → os.path.join "shared" b = "shared/" +:+ b.
Proof.
  intros Hb. unfold os.path.join, PyStr.startswith. rewrite Hb. reflexivity.
Qed.

Lemma prefix_slash_free b :
  PyStr.contains_char "/" b = false → String.prefix "/" b = false.
Proof.
  destruct b as [|c b]; [reflexivity|]. cbn [PyStr.contains_char String.prefix].
  destruct (ascii_dec "/" c) as [<-|Hne]; [discriminate|reflexivity].
Qed.

(** X12: the header is taken out wherever it occurs, not only on the first
    line.  A mapping file whose name ends in [[root]] has that text and the
    line feed after it removed as well, so that the option of the output
    file follows on the same line as that of the mapping file. *)
Theorem header_text_in_a_name_joins_two_lines (self : MorphRDB.t)
    (name output_file serialization : string)
    (rdb_username rdb_password rdb_host rdb_port rdb_name rdb_type
       : option string) (w : World) (b : bool) (w' : World) :
  PyStr.contains_char "/" name = false →
  PyStr.contains_char "010" name = false →
  no_cr name = true → no_cr output_file = true →
  no_cr_opt rdb_username = true → no_cr_opt rdb_password = true →
  no_cr_opt rdb_host = true → no_cr_opt rdb_port = true →
  no_cr_opt rdb_name = true →
  PyStr.contains_char "[" name = false →
  PyStr.contains_char "[" output_file = false →
  opt_free "[" rdb_username = true → opt_free "[" rdb_password = true →
  opt_free "[" rdb_host = true → opt_free "[" rdb_port = true →
  opt_free "[" rdb_name = true →
  MorphRDB.execute_mapping self (name +:+ "[root]") output_file serialization
    rdb_username rdb_password rdb_host rdb_port rdb_name rdb_type w
  = (inr b, w') →
  ∃ rest,
    fs w' !! MorphRDB.config_path self
    = Some (File ("mappingdocument.file.path=shared/" +:+ name
                  +:+ "output.file.path=" +:+ rest)).
Proof.
  intros Sn Ln Cn Co CU CP CH CPo CN Bn Bo BU BP BH BPo BN Hrun.
  apply execute_mapping_result in Hrun as (cfg & Hc & Hf & _).
  apply config_of_inr in Hc as (tok & Ht & ->).
  assert (Sn' : PyStr.contains_char "/" (name +:+ "[root]") = false)
    by (rewrite contains_app, Sn; reflexivity).
  assert (Cn' : no_cr (name +:+ "[root]") = true)
    by (rewrite no_cr_app, Cn; reflexivity).
  pose proof (items_no_cr (name +:+ "[root]") output_file tok rdb_username
                rdb_password rdb_host rdb_port rdb_name rdb_type Cn' Co
                (token_no_cr _ _ Ht) CU CP CH CPo CN) as Hcr.
  pose proof (items_brackets name output_file tok rdb_username
                rdb_password rdb_host rdb_port rdb_name rdb_type Bn Bo
                (token_free _ _ Ht) BU BP BH BPo BN) as Hbr.
  rewrite Hf. unfold final_artifact. rewrite first_artifact_root.
  rewrite universal_newlines_id
    by (rewrite !no_cr_app, no_cr_items by exact Hcr; reflexivity).
  rewrite strip_root.
  set (others := [("output.file.path",
                   os.path.join "shared" (os.path.basename output_file));
                  ("output.rdflanguage", tok)]
                 ++ database_items rdb_username rdb_password rdb_host
                      rdb_port rdb_name rdb_type).
  assert (Hbody :
    configparser.concat_map (configparser.write_item "=")
      (base_items (name +:+ "[root]") output_file tok
       ++ database_items rdb_username rdb_password rdb_host rdb_port rdb_name
            rdb_type) +:+ LF
    = ("mappingdocument.file.path=shared/" +:+ name) +:+ ROOT
      +:+ configparser.concat_map (configparser.write_item "=") others +:+ LF).
  { unfold base_items, others. cbn [app configparser.concat_map].
    unfold configparser.write_item at 1. cbn [fst snd].
    rewrite basename_plain, join_shared
      by (assumption || apply prefix_slash_free; assumption).
    rewrite (replace_absent "010" "" (LF +:+ configparser.TAB))
      by (rewrite !contains_app, Ln; reflexivity).
    unfold ROOT. rewrite !append_assoc. reflexivity. }
  rewrite Hbody.
  assert (Bv : PyStr.contains_char "["
                 ("mappingdocument.file.path=shared/" +:+ name) = false)
    by (rewrite contains_app, Bn; reflexivity).
  apply free_no_open_r in Bv as [Hn He].
  rewrite strip_app, strip_root by assumption.
  rewrite strip_absent.
  2:{ apply items_no_open_r; [|reflexivity].
      unfold base_items in Hbr. cbn [app] in Hbr.
      inversion Hbr; subst. assumption. }
  unfold others. cbn [app configparser.concat_map].
  unfold configparser.write_item at 1. cbn [fst snd].
  eexists. rewrite !append_assoc. reflexivity.
Qed.

Lemma header_text_in_a_name_on_case :
  ∃ rest,
    fs (snd (MorphRDB.execute_mapping Case.morphrdb ("mapping" +:+ "[root]")
               "out.nq" "nquads" None None None None None None Case.world))
      !! MorphRDB.config_path Case.morphrdb
    = Some (File ("mappingdocument.file.path=shared/" +:+ "mapping"
                  +:+ "output.file.path=" +:+ rest)).
Proof.
  destruct (MorphRDB.execute_mapping Case.morphrdb ("mapping" +:+ "[root]")
              "out.nq" "nquads" None None None None None None Case.world)
    as [r w1] eqn:E.
  assert (Hr : r = inr true).
  { apply (f_equal fst) in E. cbn [fst] in E. rewrite <- E.
    vm_compute. reflexivity. }
  subst r. cbn [snd].
  exact (header_text_in_a_name_joins_two_lines Case.morphrdb "mapping"
           "out.nq" "nquads" None None None None None None Case.world true w1
           eq_refl eq_refl eq_refl eq_refl eq_refl eq_refl eq_refl eq_refl
           eq_refl eq_refl eq_refl eq_refl eq_refl eq_refl eq_refl eq_refl E).
Defined.

(** ** Lines of the file when a credential is missing *)

Section LineStarts.

Variable ok : ascii → bool.




Hypothesis ok_tab : ok "009" = true.




End LineStarts.








(** ** An unknown kind of database *)

Lemma set_single_accepts sect o v d :
  accepts v = true →
  configparser.set sect o v [(sect, d)]
  = inr [(sect, configparser.dict_set (configparser.optionxform o) v d)].
Proof.
  unfold accepts, configparser.set.
  cbn [configparser.dict_get configparser.dict_set]. rewrite String.eqb_refl.
  destruct (String.eqb v ""); [reflexivity|]. cbn [orb].
  destruct (before_set_inv v) as [[msg ->]| ->]; [discriminate|reflexivity].
Qed.

Lemma config_of_unknown_kind_message m o s u p h po n k :
  s = "nquads" ∨ s = "ntriples" → k ≠ "MySQL" → k ≠ "PostgreSQL" →
  accepts (os.path.join "shared" (os.path.basename m)) = true →
  accepts (os.path.join "shared" (os.path.basename o)) = true →
  accepts n = true →
  MorphRDB.config_of m o s (Some u) (Some p) (Some h) (Some po) (Some n)
    (Some k)
  = inl (ValueError ("Unknown RDB type: " +:+ DQ +:+ k +:+ DQ)).
Proof.
  intros Hs Hk1 Hk2 Am Ao An. apply String.eqb_neq in Hk1, Hk2.
  unfold MorphRDB.config_of, configparser.setitem_option.
  rewrite Hk1, Hk2.
  destruct Hs as [-> | ->]; cbn; norm_keys; cbn.
  all: rewrite (set_single_accepts _ _ _ _ Am); cbn; norm_keys; cbn.
  all: rewrite (set_single_accepts _ _ _ _ Ao); cbn; norm_keys; cbn.
  all: rewrite set_single_accepts by reflexivity; cbn; norm_keys; cbn.
  all: rewrite (set_single_accepts _ _ _ _ An); cbn.
  all: reflexivity.
Qed.

(** C6, as the code has it: with a serialization the adapter knows, all
    six credentials and a database kind that is neither [MySQL] nor
    [PostgreSQL], [MorphRDB.execute_mapping] raises [ValueError] and the
    world is as it was: nothing is written, nothing launched.  The error
    is [Unknown RDB type] with the kind whenever the two file names and
    the name of the database pass the check of [configparser]; a value
    that does not pass has raised its own [ValueError] before. *)
Theorem unknown_database_kind_is_refused (self : MorphRDB.t)
    (mapping_file output_file serialization : string)
    (rdb_username rdb_password rdb_host rdb_port rdb_name rdb_type : string)
    (w : World) :
  serialization = "nquads" ∨ serialization = "ntriples" →
  rdb_type ≠ "MySQL" → rdb_type ≠ "PostgreSQL" →
  ∃ msg,
    MorphRDB.execute_mapping self mapping_file output_file serialization
      (Some rdb_username) (Some rdb_password) (Some rdb_host) (Some rdb_port)
      (Some rdb_name) (Some rdb_type) w
    = (inl (ValueError msg), w)
    ∧ (accepts (os.path.join "shared" (os.path.basename mapping_file)) = true →
       accepts (os.path.join "shared" (os.path.basename output_file)) = true →
       accepts rdb_name = true →
       msg = "Unknown RDB type: " +:+ DQ +:+ rdb_type +:+ DQ).
Proof.
  intros Hs Hk1 Hk2.
  destruct (config_of_unknown_kind mapping_file output_file serialization
              rdb_username rdb_password rdb_host rdb_port rdb_name rdb_type
              Hs Hk1 Hk2) as [msg Hc].
  exists msg. split.
  - unfold MorphRDB.execute_mapping. rewrite Hc. reflexivity.
  - intros Am Ao An.
    rewrite (config_of_unknown_kind_message _ _ _ rdb_username rdb_password
               rdb_host rdb_port _ _ Hs Hk1 Hk2 Am Ao An) in Hc.
    injection Hc as <-. reflexivity.
Qed.

Lemma unknown_database_kind_on_case :
  MorphRDB.execute_mapping Case.morphrdb "mapping.ttl" "out.nq" "nquads"
    (Some "root") (Some "secret") (Some "db.example") (Some "1521")
    (Some "bench") (Some "Oracle") Case.world
  = (inl (ValueError ("Unknown RDB type: " +:+ DQ +:+ "Oracle" +:+ DQ)),
     Case.world).
Proof.
  destruct (unknown_database_kind_is_refused Case.morphrdb "mapping.ttl"
              "out.nq" "nquads" "root" "secret" "db.example" "1521" "bench"
              "Oracle" Case.world (or_introl eq_refl))
    as (msg & Hrun & Hmsg); [discriminate|discriminate|].
  rewrite Hrun, Hmsg; [reflexivity|vm_compute; reflexivity..].
Defined.

(** The serialization is looked at first: with [turtle] the unknown kind
    is never reached and the error is that of the format. *)
Lemma unsupported_format_comes_before_unknown_kind :
  MorphRDB.execute_mapping Case.morphrdb "mapping.ttl" "out.ttl" "turtle"
    (Some "root") (Some "secret") (Some "db.example") (Some "1521")
    (Some "bench") (Some "Oracle") Case.world
  = (inl (NotImplementedError
            ("Unsupported serialization: " +:+ DQ +:+ "turtle" +:+ DQ)),
     Case.world).
Proof. reflexivity. Qed.

(** ** Constructing an adapter twice *)







